(** * Ollama chat client: formatter, history store and streaming controller

    A shallow embedding of [src/app.py].  Python [str] values are modelled
    as [string]s whose characters are code points below 256; Python lists
    are [list]s; dictionaries with a fixed set of keys are records; the
    per-user history files form a finite map from paths to file states.
    What the environment supplies to a script run (the selected model, the
    clock, the chunks of the stream, a press of the stop button, an
    exception of the stream) is an argument of the function that models
    the run.  Rendering into the page and the pause between chunks have no
    effect on the state and are left out. *)

From Stdlib Require Import Ascii String List Bool Arith ZArith Lia.
From stdpp Require Import base list strings gmap.

Set Warnings "-register-all".

(** [simpl] unfolds string concatenation on a literal left operand. *)
Arguments String.append !s1 s2.

(** ** Python string primitives *)

Module Py.

Definition newline : ascii := "010"%char.
Definition space : ascii := " "%char.

(** The one-character text [s] of Python's ['\n']. *)
Definition nl : string := String newline EmptyString.

(** Truthiness of a [str]: non-empty. *)
Definition truthy (s : string) : bool :=
  match s with EmptyString => false | String _ _ => true end.

(** [str.isspace] on one character, for code points below 256. *)
Definition isspace (c : ascii) : bool :=
  let n := nat_of_ascii c in
  ((9 <=? n) && (n <=? 13)) || ((28 <=? n) && (n <=? 32))
  || (n =? 133) || (n =? 160).

(** [s.split(sep)] for a one-character separator. *)
Fixpoint split (sep : ascii) (s : string) : list string :=
  match s with
  | EmptyString => [EmptyString]
  | String c s' =>
      if Ascii.eqb c sep then EmptyString :: split sep s'
      else match split sep s' with
           | l :: ls => String c l :: ls
           | [] => [String c EmptyString]
           end
  end.

(** [sep.join(pieces)]. *)
Definition join (sep : string) (pieces : list string) : string :=
  String.concat sep pieces.

(** [s.startswith(p)]. *)
Fixpoint startswith (p s : string) : bool :=
  match p with
  | EmptyString => true
  | String a p' =>
      match s with
      | EmptyString => false
      | String b s' => Ascii.eqb a b && startswith p' s'
      end
  end.

(** [s[n:]]. *)
Fixpoint drop (n : nat) (s : string) : string :=
  match n, s with
  | O, _ => s
  | S _, EmptyString => EmptyString
  | S n', String _ s' => drop n' s'
  end.

(** [s[:n]]. *)
Fixpoint take (n : nat) (s : string) : string :=
  match n, s with
  | O, _ => EmptyString
  | S _, EmptyString => EmptyString
  | S n', String c s' => String c (take n' s')
  end.

(** [c in s] for a single character [c]. *)
Fixpoint contains (c : ascii) (s : string) : bool :=
  match s with
  | EmptyString => false
  | String d s' => Ascii.eqb d c || contains c s'
  end.

Fixpoint lstrip (s : string) : string :=
  match s with
  | EmptyString => EmptyString
  | String c s' => if isspace c then lstrip s' else s
  end.

Fixpoint rstrip (s : string) : string :=
  match s with
  | EmptyString => EmptyString
  | String c s' =>
      match rstrip s' with
      | EmptyString => if isspace c then EmptyString else String c EmptyString
      | r => String c r
      end
  end.

(** [s.strip()]. *)
Definition strip (s : string) : string := rstrip (lstrip s).

(** The characters at which [str.splitlines] breaks a text, for code
    points below 256; a carriage return followed by a line feed counts
    once. *)
Definition is_linebreak (c : ascii) : bool :=
  let n := nat_of_ascii c in
  ((10 <=? n) && (n <=? 13)) || ((28 <=? n) && (n <=? 30)) || (n =? 133).

(** [s.splitlines()]. *)
Fixpoint splitlines (s : string) : list string :=
  match s with
  | EmptyString => []
  | String c s' =>
      if Ascii.eqb c "013" then
        match s' with
        | String d s'' =>
            if Ascii.eqb d newline then EmptyString :: splitlines s''
            else EmptyString :: splitlines s'
        | EmptyString => [EmptyString]
        end
      else if is_linebreak c then EmptyString :: splitlines s'
      else match splitlines s' with
           | l :: ls => String c l :: ls
           | [] => [String c EmptyString]
           end
  end.

(** [s.split()]: the maximal runs of characters that are not white space. *)
Fixpoint split_whitespace (s : string) : list string :=
  match s with
  | EmptyString => []
  | String c s' =>
      if isspace c then split_whitespace s'
      else match s' with
           | EmptyString => [String c EmptyString]
           | String d _ =>
               if isspace d then String c EmptyString :: split_whitespace s'
               else match split_whitespace s' with
                    | t :: ts => String c t :: ts
                    | [] => [String c EmptyString]
                    end
           end
  end.

End Py.

(** ** The code-fence formatter ([render_markdown_with_code]) *)

Definition fence : string := "```".

(** The three local variables of the scanning loop. *)
Record scan := Scan {
  in_code_block : bool;
  code_lines : list string;
  output : list string
}.

Definition scan0 : scan := Scan false [] [].

(** The block appended to [output] when a fence closes. *)
Definition fence_block (language code : string) : string :=
  fence +:+ language +:+ Py.nl +:+ code +:+ Py.nl +:+ fence.

(** What the closing branch computes from the buffered lines. *)
Definition close_fence (buffered : list string) : string :=
  let code := Py.join Py.nl buffered in
  let language :=
    match buffered with
    | first :: _ => if Py.truthy first then Py.strip first else EmptyString
    | [] => EmptyString
    end in
  if Py.truthy language && negb (Py.contains Py.space language)
  then fence_block language (Py.join Py.nl (tail buffered))
  else fence_block EmptyString code.

(** One iteration of the [for line in text.split('\n')] loop. *)
Definition scan_line (st : scan) (line : string) : scan :=
  if Py.startswith fence line then
    if in_code_block st then
      Scan false [] (output st ++ [close_fence (code_lines st)])
    else
      let language := Py.strip (Py.drop 3 line) in
      Scan true
           (if Py.truthy language then code_lines st ++ [language]
            else code_lines st)
           (output st)
  else if in_code_block st then
    Scan true (code_lines st ++ [line]) (output st)
  else
    Scan false (code_lines st) (output st ++ [line]).

Definition scan_lines (st : scan) (lines : list string) : scan :=
  fold_left scan_line lines st.

Definition render_markdown_with_code (text : string) : string :=
  Py.join Py.nl (output (scan_lines scan0 (Py.split Py.newline text))).

(** ** Data model *)

Inductive Role := System | User | Assistant.

Definition role_name (r : Role) : string :=
  match r with System => "system" | User => "user" | Assistant => "assistant" end.

Definition Role_eqb (a b : Role) : bool :=
  match a, b with
  | System, System | User, User | Assistant, Assistant => true
  | _, _ => false
  end.

(** A message dictionary: [formatted] is [None] when the key is absent. *)
Record Message := Msg {
  role : Role;
  content : string;
  formatted : option bool
}.

(** A conversation record of the history list. *)
Module Chat.
Record t := Make {
  name : string;
  messages : list Message;
  timestamp : string;
  model : string
}.
End Chat.

(** The request descriptor stored in [to_stream]. *)
Module Request.
Record t := Make {
  model : string;
  messages : list Message
}.
End Request.

(** ** JSON text, as [json.dump] writes it and [json.load] reads it *)

Module Json.

Inductive value :=
| VNone
| VBool (b : bool)
| VStr (s : string)
| VList (items : list value)
| VDict (items : list (string * value)).

Definition dquote : ascii := "034"%char.
Definition backslash : ascii := "\"%char.

Definition hexdigit (n : nat) : ascii :=
  ascii_of_nat (if n <? 10 then 48 + n else 87 + n).

(** [ESCAPE_DCT] of the encoder with [ensure_ascii=False]. *)
Definition escape_char (c : ascii) : string :=
  let n := nat_of_ascii c in
  if Ascii.eqb c dquote then String backslash (String dquote EmptyString)
  else if Ascii.eqb c backslash then String backslash (String backslash EmptyString)
  else if n =? 8 then "\b"
  else if n =? 12 then "\f"
  else if n =? 10 then "\n"
  else if n =? 13 then "\r"
  else if n =? 9 then "\t"
  else if n <? 32 then
    "\u00" +:+ String (hexdigit (n / 16)) (String (hexdigit (n mod 16)) EmptyString)
  else String c EmptyString.

Fixpoint escape (s : string) : string :=
  match s with
  | EmptyString => EmptyString
  | String c s' => escape_char c +:+ escape s'
  end.

Definition quote (s : string) : string :=
  String dquote (escape s +:+ String dquote EmptyString).

Fixpoint spaces (n : nat) : string :=
  match n with O => EmptyString | S n' => String Py.space (spaces n') end.

(** The line break and indentation the encoder inserts at nesting [level]
    when called with [indent=2]. *)
Definition newline_indent (level : nat) : string :=
  Py.nl +:+ spaces (2 * level).

Fixpoint encode (level : nat) (v : value) : string :=
  match v with
  | VNone => "null"
  | VBool true => "true"
  | VBool false => "false"
  | VStr s => quote s
  | VList [] => "[]"
  | VList items =>
      "[" +:+ newline_indent (S level)
      +:+ Py.join ("," +:+ newline_indent (S level))
                  (List.map (encode (S level)) items)
      +:+ newline_indent level +:+ "]"
  | VDict [] => "{}"
  | VDict items =>
      "{" +:+ newline_indent (S level)
      +:+ Py.join ("," +:+ newline_indent (S level))
                  (List.map (fun kv => quote (fst kv) +:+ ": "
                                       +:+ encode (S level) (snd kv)) items)
      +:+ newline_indent level +:+ "}"
  end.

(** [json.dumps(v, indent=2, ensure_ascii=False)]. *)
Definition dumps (v : value) : string := encode 0 v.

(** Outcome of decoding a text.  [Unsupported] marks documents that use
    number literals or escapes for code points above 255, which the
    value type above cannot hold. *)
Inductive parsed (A : Type) :=
| Parsed (a : A) (rest : string)
| Malformed
| Unsupported.
Arguments Parsed {A} a rest.
Arguments Malformed {A}.
Arguments Unsupported {A}.

Definition is_ws (c : ascii) : bool :=
  let n := nat_of_ascii c in
  (n =? 32) || (n =? 9) || (n =? 10) || (n =? 13).

Fixpoint skip_ws (s : string) : string :=
  match s with
  | String c s' => if is_ws c then skip_ws s' else s
  | EmptyString => EmptyString
  end.

Definition hexval (c : ascii) : option nat :=
  let n := nat_of_ascii c in
  if (48 <=? n) && (n <=? 57) then Some (n - 48)
  else if (97 <=? n) && (n <=? 102) then Some (n - 87)
  else if (65 <=? n) && (n <=? 70) then Some (n - 55)
  else None.

Definition unescape (c : ascii) : option ascii :=
  let n := nat_of_ascii c in
  if Ascii.eqb c dquote then Some dquote
  else if Ascii.eqb c backslash then Some backslash
  else if Ascii.eqb c "/" then Some "/"%char
  else if Ascii.eqb c "b" then Some "008"%char
  else if Ascii.eqb c "f" then Some "012"%char
  else if Ascii.eqb c "n" then Some "010"%char
  else if Ascii.eqb c "r" then Some "013"%char
  else if Ascii.eqb c "t" then Some "009"%char
  else None.

Definition cons_char (c : ascii) (r : parsed string) : parsed string :=
  match r with
  | Parsed s rest => Parsed (String c s) rest
  | Malformed => Malformed
  | Unsupported => Unsupported
  end.

(** The body of a string literal, after its opening quote. *)
Fixpoint scan_string (s : string) : parsed string :=
  match s with
  | EmptyString => Malformed
  | String c s' =>
      if Ascii.eqb c dquote then Parsed EmptyString s'
      else if Ascii.eqb c backslash then
        match s' with
        | EmptyString => Malformed
        | String e s'' =>
            if Ascii.eqb e "u" then
              match s'' with
              | String h1 (String h2 (String h3 (String h4 s3))) =>
                  match hexval h1, hexval h2, hexval h3, hexval h4 with
                  | Some a, Some b, Some c', Some d =>
                      let code := ((a * 16 + b) * 16 + c') * 16 + d in
                      if code <? 256
                      then cons_char (ascii_of_nat code) (scan_string s3)
                      else Unsupported
                  | _, _, _, _ => Malformed
                  end
              | _ => Malformed
              end
            else
              match unescape e with
              | Some ch => cons_char ch (scan_string s'')
              | None => Malformed
              end
        end
      else if nat_of_ascii c <? 32 then Malformed
      else cons_char c (scan_string s')
  end.

Definition is_digit (c : ascii) : bool :=
  let n := nat_of_ascii c in (48 <=? n) && (n <=? 57).

(** [d[k] = v] on a dictionary kept in insertion order. *)
Fixpoint dict_set (k : string) (v : value) (d : list (string * value))
  : list (string * value) :=
  match d with
  | [] => [(k, v)]
  | (k', v') :: d' =>
      if String.eqb k' k then (k', v) :: d' else (k', v') :: dict_set k v d'
  end.

(** Recursive descent over the text.  Every call spends one unit of
    [fuel] and consumes at least one character, so the length of the
    text bounds the fuel that is needed; running out is reported as
    [Unsupported]. *)
Fixpoint parse_value (fuel : nat) (s : string) : parsed value :=
  match fuel with
  | O => Unsupported
  | S fuel' =>
      match s with
      | EmptyString => Malformed
      | String c r =>
          if Ascii.eqb c dquote then
            match scan_string r with
            | Parsed str rest => Parsed (VStr str) rest
            | Malformed => Malformed
            | Unsupported => Unsupported
            end
          else if Ascii.eqb c "[" then
            match skip_ws r with
            | String c1 r1 =>
                if Ascii.eqb c1 "]" then Parsed (VList []) r1
                else parse_elements fuel' (String c1 r1) []
            | EmptyString => Malformed
            end
          else if Ascii.eqb c "{" then
            match skip_ws r with
            | String c1 r1 =>
                if Ascii.eqb c1 "}" then Parsed (VDict []) r1
                else parse_members fuel' (String c1 r1) []
            | EmptyString => Malformed
            end
          else if Py.startswith "null" s then Parsed VNone (Py.drop 4 s)
          else if Py.startswith "true" s then Parsed (VBool true) (Py.drop 4 s)
          else if Py.startswith "false" s then Parsed (VBool false) (Py.drop 5 s)
          else if is_digit c then Unsupported
          else if Ascii.eqb c "-" then
            match r with
            | String d _ =>
                if is_digit d || Py.startswith "Infinity" r
                then Unsupported else Malformed
            | EmptyString => Malformed
            end
          else if Py.startswith "NaN" s || Py.startswith "Infinity" s
          then Unsupported
          else Malformed
      end
  end

(** The elements of a non-empty array, [s] standing at an element. *)
with parse_elements (fuel : nat) (s : string) (acc : list value)
  : parsed value :=
  match fuel with
  | O => Unsupported
  | S fuel' =>
      match parse_value fuel' s with
      | Parsed v rest =>
          match skip_ws rest with
          | String c r =>
              if Ascii.eqb c "]" then Parsed (VList (acc ++ [v])) r
              else if Ascii.eqb c "," then
                parse_elements fuel' (skip_ws r) (acc ++ [v])
              else Malformed
          | EmptyString => Malformed
          end
      | Malformed => Malformed
      | Unsupported => Unsupported
      end
  end

(** The members of a non-empty object, [s] standing at a key. *)
with parse_members (fuel : nat) (s : string) (acc : list (string * value))
  : parsed value :=
  match fuel with
  | O => Unsupported
  | S fuel' =>
      match s with
      | String q r =>
          if Ascii.eqb q dquote then
            match scan_string r with
            | Parsed key rest =>
                match skip_ws rest with
                | String colon r1 =>
                    if Ascii.eqb colon ":" then
                      match parse_value fuel' (skip_ws r1) with
                      | Parsed v rest' =>
                          match skip_ws rest' with
                          | String c r2 =>
                              if Ascii.eqb c "}"
                              then Parsed (VDict (dict_set key v acc)) r2
                              else if Ascii.eqb c "," then
                                parse_members fuel' (skip_ws r2)
                                              (dict_set key v acc)
                              else Malformed
                          | EmptyString => Malformed
                          end
                      | Malformed => Malformed
                      | Unsupported => Unsupported
                      end
                    else Malformed
                | EmptyString => Malformed
                end
            | Malformed => Malformed
            | Unsupported => Unsupported
            end
          else Malformed
      | EmptyString => Malformed
      end
  end.

(** [json.loads(s)]: one value surrounded by optional white space.  The
    nesting depth is not limited here (Python gives up with a
    RecursionError at its recursion limit). *)
Definition loads (s : string) : parsed value :=
  match parse_value (S (String.length s)) (skip_ws s) with
  | Parsed v rest =>
      match skip_ws rest with
      | EmptyString => Parsed v EmptyString
      | String _ _ => Malformed
      end
  | Malformed => Malformed
  | Unsupported => Unsupported
  end.

(** *** Measures and shapes used to reason about the two directions *)

(** Number of parser calls the text of a value needs. *)
Fixpoint size (v : value) : nat :=
  match v with
  | VList items => S (fold_right (fun x n => S (size x + n)) 0 items)
  | VDict items =>
      S (fold_right (fun kv n => S (size (snd kv) + n)) 0 items)
  | _ => 1
  end.

(** Values whose dictionaries hold each key once, at every depth. *)
Fixpoint distinct_keys (v : value) : Prop :=
  match v with
  | VList items => fold_right (fun x P => distinct_keys x /\ P) True items
  | VDict items =>
      NoDup (List.map fst items)
      /\ fold_right (fun kv P => distinct_keys (snd kv) /\ P) True items
  | _ => True
  end.

(** Texts that begin a value: no white space and no closing bracket. *)
Definition value_head (s : string) : Prop :=
  match s with
  | String c _ =>
      is_ws c = false /\ Ascii.eqb c "]" = false /\ Ascii.eqb c "}" = false
  | EmptyString => False
  end.

(** The separator between the items of a container at [level]. *)
Definition item_sep (level : nat) : string :=
  "," +:+ newline_indent (S level).

Definition member_text (level : nat) (kv : string * value) : string :=
  quote (fst kv) +:+ ": " +:+ encode (S level) (snd kv).

Definition sizes (items : list value) : nat :=
  fold_right (fun x n => S (size x + n)) 0 items.

Definition member_sizes (items : list (string * value)) : nat :=
  fold_right (fun kv n => S (size (snd kv) + n)) 0 items.

Definition all_distinct (items : list value) : Prop :=
  fold_right (fun x P => distinct_keys x /\ P) True items.

Definition members_distinct (items : list (string * value)) : Prop :=
  fold_right (fun kv P => distinct_keys (snd kv) /\ P) True items.

(** What follows an item: the closing bracket after the last one, a
    comma and the next item otherwise. *)
Definition after_item (level : nat) (closer : ascii) (more : list string)
    (rest : string) : string :=
  match more with
  | [] => newline_indent level +:+ String closer rest
  | _ :: _ =>
      item_sep level
      +:+ (Py.join (item_sep level) more
           +:+ (newline_indent level +:+ String closer rest))
  end.

End Json.

(** ** The history store ([load_history], [save_history]) *)

Inductive exn :=
| JSONDecodeError
| FileNotFoundError
| PermissionError
| UnicodeDecodeError
| IndexError.

(** Result of a call that may raise.  [NotModelled] is the outcome of
    reading a document that [Json.loads] reports as unsupported. *)
Inductive outcome (A : Type) :=
| Returns (a : A)
| Raises (e : exn)
| NotModelled.
Arguments Returns {A} a.
Arguments Raises {A} e.
Arguments NotModelled {A}.

(** What the operating system holds at an existing path. *)
Inductive file :=
| NoAccess            (* opening it for reading raises PermissionError *)
| NotUtf8             (* readable, but its bytes are not valid UTF-8 *)
| Text (s : string).  (* readable, and its bytes are the UTF-8 form of [s] *)

Definition HISTORY_DIR : string := "chat_histories".

(** [os.path.join(HISTORY_DIR, f"{user_id}.json")]. *)
Definition get_user_history_file (user_id : string) : string :=
  HISTORY_DIR +:+ "/" +:+ user_id +:+ ".json".

(** [with open(path, "r", encoding="utf-8") as f: return json.load(f)]. *)
Definition read_json (f : file) : outcome Json.value :=
  match f with
  | NoAccess => Raises PermissionError
  | NotUtf8 => Raises UnicodeDecodeError
  | Text s =>
      match Json.loads s with
      | Json.Parsed v _ => Returns v
      | Json.Malformed => Raises JSONDecodeError
      | Json.Unsupported => NotModelled
      end
  end.

Definition load_history (files : gmap string file) (user_id : string)
  : outcome Json.value :=
  match files !! get_user_history_file user_id with
  | Some f =>
      match read_json f with
      | Raises JSONDecodeError | Raises FileNotFoundError =>
          Returns (Json.VList [])
      | r => r
      end
  | None => Returns (Json.VList [])
  end.

(** The Python values of the typed data, as [json.dump] receives them. *)
Definition message_value (m : Message) : Json.value :=
  Json.VDict
    ([("role", Json.VStr (role_name (role m)));
      ("content", Json.VStr (content m))]
     ++ match formatted m with
        | Some b => [("formatted", Json.VBool b)]
        | None => []
        end).

Definition chat_value (c : Chat.t) : Json.value :=
  Json.VDict
    [("name", Json.VStr (Chat.name c));
     ("messages", Json.VList (List.map message_value (Chat.messages c)));
     ("timestamp", Json.VStr (Chat.timestamp c));
     ("model", Json.VStr (Chat.model c))].

Definition history_value (h : list Chat.t) : Json.value :=
  Json.VList (List.map chat_value h).

(** [with open(path, "w", encoding="utf-8") as f:
       json.dump(h, f, indent=2, ensure_ascii=False)]. *)
Definition save_history (files : gmap string file) (user_id : string)
    (h : list Chat.t) : gmap string file :=
  <[get_user_history_file user_id := Text (Json.dumps (history_value h))]> files.

(** ** Session state and the streaming controller *)

Record session := Session {
  user_id : string;
  chat_history : list Chat.t;
  messages : list Message;
  current_idx : option nat;
  to_stream : option Request.t;
  stop_requested : bool;
  system_prompt : string;
  file_text : option string
}.

(** The session together with the files it persists to. *)
Record world := World {
  files : gmap string file;
  state : session
}.

(** Result of a script run: completed, or stopped by an uncaught
    exception with the state reached so far. *)
Inductive run :=
| Done (w : world)
| Failed (e : exn) (w : world).

(** A streamed chunk: its [message] and that message's [content], either
    of which may be missing. *)
Record Chunk := { message : option (option string) }.

(** The content of the message of a chunk, the empty text when either
    is missing. *)
Definition delta (c : Chunk) : string :=
  match message c with
  | Some (Some text) => text
  | _ => EmptyString
  end.

(** What can happen while the [for chunk in chat(...)] loop runs. *)
Inductive event :=
| Yield (c : Chunk)      (* the stream delivers its next chunk *)
| StopPressed            (* [stop_requested] becomes true *)
| Throw (e : string).    (* the stream raises an exception printing as [e] *)

(** The submit block, run while nothing is queued. *)
Definition submit (selected_model user_input : string) (st : session)
  : session :=
  match to_stream st with
  | Some _ => st
  | None =>
      if Py.truthy user_input then
        let with_file :=
          match file_text st with
          | Some f =>
              if Py.truthy f
              then ("File context:" +:+ Py.nl +:+ f +:+ Py.nl +:+ Py.nl
                    +:+ "---" +:+ Py.nl +:+ Py.nl +:+ user_input, None)
              else (user_input, file_text st)
          | None => (user_input, None)
          end in
        let messages' := messages st ++ [Msg User (fst with_file) None] in
        let messages_for_api :=
          [Msg System (system_prompt st) None] ++ messages' in
        Session (user_id st) (chat_history st) messages' (current_idx st)
                (Some (Request.Make selected_model messages_for_api))
                false (system_prompt st) (snd with_file)
      else st
  end.

(** The streaming loop with its [except] clause: the accumulated
    [full_response] and the events the loop never reached. *)
Fixpoint consume (stop : bool) (full_response : string) (events : list event)
  : string * list event :=
  match events with
  | [] => (full_response, [])
  | StopPressed :: rest => consume true full_response rest
  | Yield c :: rest =>
      if stop then (full_response, rest)
      else consume stop (full_response +:+ delta c) rest
  | Throw e :: rest => ("**Error:** " +:+ e, rest)
  end.

(** [next((m["content"] for m in messages if m["role"] == "user"), "Chat")]. *)
Definition first_user (msgs : list Message) : string :=
  match List.find (fun m => Role_eqb (role m) User) msgs with
  | Some m => content m
  | None => "Chat"
  end.

(** [first_user[:30] + "..." if len(first_user) > 30 else first_user]. *)
Definition title_of (first_user : string) : string :=
  if 30 <? String.length first_user
  then Py.take 30 first_user +:+ "..."
  else first_user.

(** The code after the loop: final rendering, history update, save, reset. *)
Definition finalize (selected_model now full_response : string) (w : world)
  : run :=
  let st := state w in
  let formatted_response := render_markdown_with_code full_response in
  let messages' := messages st ++ [Msg Assistant formatted_response (Some true)] in
  let saved (history : list Chat.t) (idx : option nat) :=
    Done (World (save_history (files w) (user_id st) history)
                (Session (user_id st) history messages' idx None false
                         (system_prompt st) (file_text st))) in
  match current_idx st with
  | None =>
      let title := title_of (first_user messages') in
      let history :=
        chat_history st ++ [Chat.Make title messages' now selected_model] in
      saved history (Some (length history - 1))
  | Some i =>
      match chat_history st !! i with
      | Some old =>
          saved (<[i := Chat.Make (Chat.name old) messages' now selected_model]>
                   (chat_history st))
                (Some i)
      | None =>
          Failed IndexError
                 (World (files w)
                        (Session (user_id st) (chat_history st) messages'
                                 (current_idx st) (to_stream st)
                                 (stop_requested st) (system_prompt st)
                                 (file_text st)))
      end
  end.

(** One run of the streaming branch, taken while a request is queued. *)
Definition stream (selected_model now : string) (events : list event)
    (w : world) : run :=
  match to_stream (state w) with
  | None => Done w
  | Some _ =>
      finalize selected_model now
               (fst (consume (stop_requested (state w)) EmptyString events)) w
  end.

(** The Delete button of the history entry at [orig_i]; the button only
    exists for entries of the list. *)
Definition delete_chat (orig_i : nat) (w : world) : option world :=
  let st := state w in
  match chat_history st !! orig_i with
  | None => None
  | Some _ =>
      let history := delete orig_i (chat_history st) in
      let files' := save_history (files w) (user_id st) history in
      Some (World files'
        (if decide (current_idx st = Some orig_i)
         then Session (user_id st) history [] None (to_stream st)
                      (stop_requested st) (system_prompt st) (file_text st)
         else Session (user_id st) history (messages st) (current_idx st)
                      (to_stream st) (stop_requested st) (system_prompt st)
                      (file_text st)))
  end.

(** ** The model catalogue ([get_ollama_models]) *)

(** How the run of the listing command ends: it exits with a return
    code and output that decodes to text, it exits with output that is
    not text in the encoding of the locale ([text=True] makes
    [subprocess.run] decode it), or it cannot be started. *)
Inductive process :=
| Exited (returncode : Z) (stdout : string)
| Undecodable          (* UnicodeDecodeError *)
| NoSuchProgram        (* FileNotFoundError *)
| NotPermitted.        (* PermissionError *)

Definition FALLBACK_MODELS : list string := ["llama3"; "mistral"].

(** [[line.split()[0] for line in lines if line.strip()]]; indexing an
    empty list raises IndexError. *)
Fixpoint first_tokens (lines : list string) : outcome (list string) :=
  match lines with
  | [] => Returns []
  | line :: rest =>
      if Py.truthy (Py.strip line) then
        match Py.split_whitespace line with
        | token :: _ =>
            match first_tokens rest with
            | Returns tokens => Returns (token :: tokens)
            | r => r
            end
        | [] => Raises IndexError
        end
      else first_tokens rest
  end.

(** [subprocess.run(..., check=True)] raises CalledProcessError on a
    non-zero return code; that error and a missing program give the
    fallback list, every other exception leaves the function. *)
Definition get_ollama_models (p : process) : outcome (list string) :=
  match p with
  | Exited returncode stdout =>
      if (returncode =? 0)%Z
      then first_tokens (tail (Py.splitlines stdout))
      else Returns FALLBACK_MODELS
  | Undecodable => Raises UnicodeDecodeError
  | NoSuchProgram => Returns FALLBACK_MODELS
  | NotPermitted => Raises PermissionError
  end.

(** ** Uploaded files ([extract_text_from_file]) *)

(** What an optional library does when it is asked for the text. *)
Inductive library (A : Type) :=
| NotInstalled
| Fails
| Gives (a : A).
Arguments NotInstalled {A}.
Arguments Fails {A}.
Arguments Gives {A} a.

(** An uploaded file: its declared type, its bytes read as UTF-8 ([None]
    when decoding raises), and what the PDF and DOCX readers make of it. *)
Record UploadedFile := Upload {
  type : string;
  decoded : option string;
  pdf_pages : library (list string);
  docx_text : library string
}.

Definition string_in (s : string) (l : list string) : bool :=
  existsb (String.eqb s) l.

Definition extract_text_from_file (uploaded_file : UploadedFile)
  : option string :=
  if Py.startswith "text/" (type uploaded_file)
     || string_in (type uploaded_file) ["application/json"; "application/xml"]
  then decoded uploaded_file
  else if String.eqb (type uploaded_file) "application/pdf" then
    match pdf_pages uploaded_file with
    | Gives pages => Some (Py.join Py.nl pages)
    | _ => None
    end
  else if string_in (type uploaded_file)
            ["application/vnd.openxmlformats-officedocument.wordprocessingml.document";
             "application/msword"] then
    match docx_text uploaded_file with
    | Gives text => Some text
    | _ => None
    end
  else None.

(** ** The script, block by block *)

(** The buttons of the page. *)
Inductive button :=
| ClearFileButton
| RefreshButton
| NewChatButton
| ClearAllButton
| LoadButton (orig_i : nat)
| DeleteButton (orig_i : nat)
| StopButton.

(** What the widgets hand to one run of the script. *)
Module Run.
Record inputs := Make {
  uploaded_file : option UploadedFile;
  selected_model : string;
  system_prompt : string;
  clicked : option button;
  user_input : string;
  now : string;
  events : list event
}.
End Run.

Definition set_file_text (v : option string) (st : session) : session :=
  Session (user_id st) (chat_history st) (messages st) (current_idx st)
          (to_stream st) (stop_requested st) (system_prompt st) v.

(** The file uploader block. *)
Definition upload_block (uploaded_file : option UploadedFile) (st : session)
  : session :=
  match uploaded_file with
  | Some f =>
      match extract_text_from_file f with
      | Some extracted_text =>
          if Py.truthy extracted_text
          then set_file_text (Some extracted_text) st
          else set_file_text None st
      | None => set_file_text None st
      end
  | None => st
  end.

(** The Clear File Content button, shown while a file text is held. *)
Definition clear_file_block (clicked : option button) (st : session)
  : session :=
  match file_text st, clicked with
  | Some f, Some ClearFileButton =>
      if Py.truthy f then set_file_text None st else st
  | _, _ => st
  end.

(** The system prompt text area. *)
Definition prompt_block (system_prompt' : string) (st : session) : session :=
  if String.eqb system_prompt' (system_prompt st) then st
  else Session (user_id st) (chat_history st) (messages st) (current_idx st)
               (to_stream st) (stop_requested st) system_prompt'
               (file_text st).

(** The New Chat button. *)
Definition new_chat (st : session) : session :=
  Session (user_id st) (chat_history st) [] None None false
          (system_prompt st) None.

(** The Clear All History button. *)
Definition clear_all_history (w : world) : world :=
  let st := state w in
  World (save_history (files w) (user_id st) [])
        (Session (user_id st) [] [] None (to_stream st) (stop_requested st)
                 (system_prompt st) (file_text st)).

(** The Load button of the history entry at [orig_i]. *)
Definition load_chat (orig_i : nat) (st : session) : option session :=
  match chat_history st !! orig_i with
  | Some chat_obj =>
      Some (Session (user_id st) (chat_history st) (Chat.messages chat_obj)
                    (Some orig_i) None false (system_prompt st)
                    (file_text st))
  | None => None
  end.

(** The entries of the side bar in the order they are shown:
    [enumerate(chat_history[::-1])] with
    [orig_i = len(chat_history) - 1 - rev_i]. *)
Definition sidebar_entries (chat_history : list Chat.t) : list (nat * Chat.t) :=
  imap (fun rev_i chat_obj => (length chat_history - 1 - rev_i, chat_obj))
       (reverse chat_history).

(** The Load button as the loop body has it: it copies the messages of
    the [chat_obj] of its own iteration and stores that iteration's
    [orig_i]. *)
Definition load_entry (entry : nat * Chat.t) (st : session) : session :=
  Session (user_id st) (chat_history st) (Chat.messages (snd entry))
          (Some (fst entry)) None false (system_prompt st) (file_text st).

(** The history part of the side bar: the run ends there ([Some]) when
    one of its buttons was pressed. *)
Definition history_block (clicked : option button) (w : world) : option world :=
  match chat_history (state w) with
  | [] => None
  | _ :: _ =>
      match clicked with
      | Some ClearAllButton => Some (clear_all_history w)
      | Some (LoadButton orig_i) =>
          match load_chat orig_i (state w) with
          | Some st => Some (World (files w) st)
          | None => None
          end
      | Some (DeleteButton orig_i) => delete_chat orig_i w
      | _ => None
      end
  end.

(** The Stop Generating button. *)
Definition stop_click (st : session) : session :=
  Session (user_id st) (chat_history st) (messages st) (current_idx st)
          (to_stream st) true (system_prompt st) (file_text st).

(** One run of the script, top to bottom, once the session state is set
    up.  The model catalogue is taken to be listed, and
    [Run.selected_model] to be the entry the select box holds. *)
Definition script (i : Run.inputs) (w : world) : run :=
  let st1 := upload_block (Run.uploaded_file i) (state w) in
  let st2 := clear_file_block (Run.clicked i) st1 in
  match Run.clicked i with
  | Some RefreshButton => Done (World (files w) st2)
  | _ =>
      let st3 := prompt_block (Run.system_prompt i) st2 in
      let st4 :=
        match Run.clicked i with
        | Some NewChatButton => new_chat st3
        | _ => st3
        end in
      match history_block (Run.clicked i) (World (files w) st4) with
      | Some w' => Done w'
      | None =>
          match to_stream st4 with
          | None =>
              Done (World (files w)
                          (submit (Run.selected_model i) (Run.user_input i) st4))
          | Some _ =>
              match Run.clicked i with
              | Some StopButton => Done (World (files w) (stop_click st4))
              | _ =>
                  stream (Run.selected_model i) (Run.now i) (Run.events i)
                         (World (files w) st4)
              end
          end
      end
  end.

(** ** Vocabulary of the properties *)

(** Text written line by line, as in the examples of the specification. *)
Definition text_of (lines : list string) : string := Py.join Py.nl lines.

(** Whether scanning [text] ends inside an open fence. *)
Definition ends_in_fence (text : string) : bool :=
  in_code_block (scan_lines scan0 (Py.split Py.newline text)).

(** A text is a well-formed sequence of plain lines and fences when the
    lines that start with the marker alternately open and close a fence,
    the last fence is closed, and an opening line is one marker followed
    by its trailing text, a language tag or a first content line: that
    text does not begin with a second marker (Markdown allows no backtick
    there at all).  Body lines and closing lines are not restricted. *)
Fixpoint well_formed_lines (in_fence : bool) (lines : list string) : bool :=
  match lines with
  | [] => negb in_fence
  | l :: rest =>
      if Py.startswith fence l then
        if in_fence then well_formed_lines false rest
        else negb (Py.startswith fence (Py.strip (Py.drop 3 l)))
             && well_formed_lines true rest
      else well_formed_lines in_fence rest
  end.

Definition well_formed (text : string) : bool :=
  well_formed_lines false (Py.split Py.newline text).

(** The file context still waiting to be attached to a message. *)
Definition pending_file_context (st : session) : option string :=
  match file_text st with
  | Some f => if Py.truthy f then Some f else None
  | None => None
  end.

(** The text of a user message that carries a file context. *)
Definition with_file_context (context : option string) (user_input : string)
  : string :=
  match context with
  | Some f =>
      "File context:" +:+ Py.nl +:+ f +:+ Py.nl +:+ Py.nl +:+ "---"
      +:+ Py.nl +:+ Py.nl +:+ user_input
  | None => user_input
  end.

(** What precedes the typed text in such a message. *)
Definition context_header (f : string) : string :=
  "File context:" +:+ Py.nl +:+ f +:+ Py.nl +:+ Py.nl +:+ "---" +:+ Py.nl
  +:+ Py.nl.

(** The deltas of a sequence of chunks, concatenated. *)
Definition concat_deltas (chunks : list Chunk) : string :=
  fold_right (fun c rest => delta c +:+ rest) EmptyString chunks.


(** Runs of events in which the stream does not fail. *)
Definition throw_free (events : list event) : bool :=
  forallb (fun e => match e with Throw _ => false | _ => true end) events.

(** A chunk that carries the text [s]. *)
Definition chunk_of (s : string) : Chunk := {| message := Some (Some s) |}.

(** The world a script run leaves behind. *)
Definition world_of (r : run) : world :=
  match r with Done w | Failed _ w => w end.

(** Whether the current index is nil or designates a record. *)
Definition index_in_range (st : session) : Prop :=
  match current_idx st with
  | None => True
  | Some i => i < length (chat_history st)
  end.

(** Language tags as the formatter writes them: not empty, nothing to
    strip, no space and no line break. *)
Definition is_tag (language : string) : bool :=
  Py.truthy language && String.eqb (Py.strip language) language
  && negb (Py.contains Py.space language)
  && negb (Py.contains Py.newline language).


Fixpoint no_linebreak (s : string) : bool :=
  match s with
  | EmptyString => true
  | String c s' => negb (Py.is_linebreak c) && no_linebreak s'
  end.

(** How deep the lists and objects of a value are nested. *)
Fixpoint nesting (v : Json.value) : nat :=
  match v with
  | Json.VList items =>
      S (fold_right (fun x n => Nat.max (nesting x) n) 0 items)
  | Json.VDict items =>
      S (fold_right (fun kv n => Nat.max (nesting (snd kv)) n) 0 items)
  | _ => 0
  end.

(** The nesting of a history file: a list of records, each with its list
    of messages. *)
Definition HISTORY_NESTING : nat := 4.


(** The reply a run of the streaming branch appends. *)
Definition reply_of (stop : bool) (events : list event) : Message :=
  Msg Assistant
      (render_markdown_with_code (fst (consume stop EmptyString events)))
      (Some true).

(** The message a user text becomes in state [st]. *)
Definition user_message (st : session) (user_input : string) : Message :=
  Msg User (with_file_context (pending_file_context st) user_input) None.

(** The session after the upload, clear-file and prompt blocks of a run. *)
Definition sidebar_top (i : Run.inputs) (st : session) : session :=
  prompt_block (Run.system_prompt i)
    (clear_file_block (Run.clicked i)
       (upload_block (Run.uploaded_file i) st)).

(** A turn: the run of the script in which the text is typed, then, when
    that run ends normally, the run that streams the reply. *)
Definition turn (typed streamed : Run.inputs) (w : world) : run :=
  match script typed w with
  | Done w1 => script streamed w1
  | Failed e w1 => Failed e w1
  end.

(** The file holds the history the session holds. *)
Definition synced (w : world) : Prop :=
  load_history (files w) (user_id (state w))
  = Returns (history_value (chat_history (state w))).

(** A step that keeps the user and either leaves the files and the
    history alone or writes the new history to the user's file. *)
Definition store_step (w w' : world) : Prop :=
  user_id (state w') = user_id (state w)
  /\ (files w' = files w /\ chat_history (state w') = chat_history (state w)
      \/ files w'
         = save_history (files w) (user_id (state w))
                        (chat_history (state w'))).

(** ** Notions used in the proofs about the formatter *)

(** Texts that do not begin with white space. *)
Definition clean_head (s : string) : Prop :=
  match s with
  | EmptyString => True
  | String c _ => Py.isspace c = false
  end.

(** Lines as [split] yields them, and lines that a fence can hold. *)
Definition clean_line (l : string) : Prop := Py.contains Py.newline l = false.

Definition body_line (l : string) : Prop :=
  clean_line l /\ Py.startswith fence l = false.

(** An output piece is stable when scanning it again, outside any fence,
    just emits it. *)
Definition stable (p : string) : Prop :=
  forall out,
    scan_lines (Scan false [] out) (Py.split Py.newline p)
    = Scan false [] (out ++ [p]).

(** What the buffer holds after re-reading a body. *)
Definition reread (body : list string) : list string :=
  match body with [] => [EmptyString] | _ => body end.

(** States reached on well-formed input: everything emitted is stable
    and everything buffered can be held by a fence. *)
Definition tidy (st : scan) : Prop :=
  Forall stable (output st)
  /\ Forall body_line (code_lines st)
  /\ (in_code_block st = false -> code_lines st = []).

(** * Properties *)

(** ** Strings *)

Section StringFacts.

Lemma append_nil_r (s : string) : s +:+ EmptyString = s.
Proof. induction s as [|c s IH]; simpl; [reflexivity | now rewrite IH]. Qed.

Lemma append_assoc (a b c : string) : (a +:+ b) +:+ c = a +:+ (b +:+ c).
Proof. induction a as [|x a IH]; simpl; [reflexivity | now rewrite IH]. Qed.

Lemma length_append (a b : string) :
  String.length (a +:+ b) = String.length a + String.length b.
Proof. induction a as [|x a IH]; simpl; [reflexivity | now rewrite IH]. Qed.

Lemma join_cons (sep a : string) (b : string) (rest : list string) :
  Py.join sep (a :: b :: rest) = a +:+ sep +:+ Py.join sep (b :: rest).
Proof. reflexivity. Qed.

(** Facts about splitting at one separator character. *)
Section Split.

Variable sep : ascii.

Lemma split_nonempty (s : string) : Py.split sep s <> [].
Proof.
  destruct s as [|c s]; simpl; [discriminate |].
  destruct (Ascii.eqb c sep); [discriminate |].
  destruct (Py.split sep s); discriminate.
Qed.

(** A text without the separator is a single line. *)
Lemma split_single (s : string) :
  Py.contains sep s = false -> Py.split sep s = [s].
Proof.
  induction s as [|c s IH]; simpl; [reflexivity |].
  intros H. apply orb_false_iff in H as [Hc Hs].
  rewrite Hc, (IH Hs). reflexivity.
Qed.

(** Splitting distributes over a separator in the middle. *)
Lemma split_append (a b : string) :
  Py.split sep (a +:+ String sep b) = Py.split sep a ++ Py.split sep b.
Proof.
  induction a as [|c a IH]; simpl.
  - now rewrite Ascii.eqb_refl.
  - destruct (Ascii.eqb c sep); [now rewrite IH |].
    rewrite IH. pose proof (split_nonempty a) as Hne.
    destruct (Py.split sep a); [congruence | reflexivity].
Qed.

(** The lines of a text contain no separator. *)
Lemma split_lines_clean (s : string) :
  Forall (fun l => Py.contains sep l = false) (Py.split sep s).
Proof.
  induction s as [|c s IH]; simpl.
  - repeat constructor.
  - destruct (Ascii.eqb c sep) eqn:E; [constructor; [reflexivity | exact IH] |].
    destruct (Py.split sep s) as [|l ls]; [repeat constructor; simpl; now rewrite E |].
    inversion IH; subst. constructor; [simpl; now rewrite E | assumption].
Qed.

(** [split] undoes [join] on separator-free pieces. *)
Lemma split_join (ls : list string) :
  ls <> [] ->
  Forall (fun l => Py.contains sep l = false) ls ->
  Py.split sep (Py.join (String sep EmptyString) ls) = ls.
Proof.
  induction ls as [|a ls IH]; [congruence |].
  intros _ Hall. inversion Hall as [|? ? Ha Hls]; subst.
  destruct ls as [|b ls].
  - simpl. now apply split_single.
  - rewrite join_cons.
    change (String sep EmptyString +:+ Py.join (String sep EmptyString) (b :: ls))
      with (String sep (Py.join (String sep EmptyString) (b :: ls))).
    rewrite split_append, (split_single _ Ha), IH;
      [reflexivity | discriminate | assumption].
Qed.

(** [join] undoes [split]. *)
Lemma join_split (s : string) :
  Py.join (String sep EmptyString) (Py.split sep s) = s.
Proof.
  induction s as [|c s IH]; [reflexivity |].
  cbn [Py.split]. pose proof (split_nonempty s) as Hne.
  destruct (Ascii.eqb_spec c sep) as [-> | Hc].
  - destruct (Py.split sep s) as [|l ls]; [congruence |].
    rewrite join_cons, IH. reflexivity.
  - destruct (Py.split sep s) as [|l ls]; [congruence |].
    destruct ls as [|l' ls].
    + cbn in IH |- *. now rewrite IH.
    + rewrite join_cons. rewrite join_cons in IH. now rewrite <- IH.
Qed.

End Split.

Lemma contains_append (c : ascii) (a b : string) :
  Py.contains c (a +:+ b) = Py.contains c a || Py.contains c b.
Proof.
  induction a as [|x a IH]; simpl; [reflexivity |].
  now rewrite IH, orb_assoc.
Qed.

Lemma startswith_append (p s : string) : Py.startswith p (p +:+ s) = true.
Proof.
  induction p as [|c p IH]; simpl; [reflexivity |].
  now rewrite Ascii.eqb_refl, IH.
Qed.

Lemma contains_drop (c : ascii) (n : nat) (s : string) :
  Py.contains c s = false -> Py.contains c (Py.drop n s) = false.
Proof.
  revert s. induction n as [|n IH]; intros [|d s]; simpl; auto.
  intros H. apply orb_false_iff in H as [_ Hs]. now apply IH.
Qed.

Lemma contains_lstrip (c : ascii) (s : string) :
  Py.contains c s = false -> Py.contains c (Py.lstrip s) = false.
Proof.
  induction s as [|d s IH]; simpl; [reflexivity |].
  intros H. destruct (Py.isspace d); [| exact H].
  apply orb_false_iff in H as [_ Hs]. now apply IH.
Qed.

Lemma contains_rstrip (c : ascii) (s : string) :
  Py.contains c s = false -> Py.contains c (Py.rstrip s) = false.
Proof.
  induction s as [|d s IH]; simpl; [reflexivity |].
  intros H. apply orb_false_iff in H as [Hd Hs]. specialize (IH Hs).
  destruct (Py.rstrip s) as [|e r].
  - destruct (Py.isspace d); simpl; [reflexivity | now rewrite Hd].
  - simpl in *. now rewrite Hd, IH.
Qed.

Lemma contains_strip (c : ascii) (s : string) :
  Py.contains c s = false -> Py.contains c (Py.strip s) = false.
Proof. intros H. now apply contains_rstrip, contains_lstrip. Qed.

Lemma lstrip_clean_head (s : string) : clean_head (Py.lstrip s).
Proof.
  induction s as [|c s IH]; simpl; [exact I |].
  destruct (Py.isspace c) eqn:E; [exact IH | exact E].
Qed.

Lemma lstrip_fixed (s : string) : clean_head s -> Py.lstrip s = s.
Proof. destruct s as [|c s]; simpl; [reflexivity | now intros ->]. Qed.

Lemma rstrip_clean_head (s : string) : clean_head s -> clean_head (Py.rstrip s).
Proof.
  destruct s as [|c s]; simpl; [auto |]. intros E.
  destruct (Py.rstrip s); [rewrite E |]; exact E.
Qed.

Lemma rstrip_idem (s : string) : Py.rstrip (Py.rstrip s) = Py.rstrip s.
Proof.
  induction s as [|c s IH]; simpl; [reflexivity |].
  destruct (Py.rstrip s) as [|d r] eqn:E.
  - destruct (Py.isspace c) eqn:Ec; simpl; [reflexivity | now rewrite Ec].
  - change (Py.rstrip (String c (String d r)))
      with (match Py.rstrip (String d r) with
            | EmptyString =>
                if Py.isspace c then EmptyString else String c EmptyString
            | r' => String c r'
            end).
    now rewrite IH.
Qed.

Lemma strip_idem (s : string) : Py.strip (Py.strip s) = Py.strip s.
Proof.
  unfold Py.strip.
  rewrite (lstrip_fixed (Py.rstrip (Py.lstrip s))).
  - apply rstrip_idem.
  - apply rstrip_clean_head, lstrip_clean_head.
Qed.

End StringFacts.

(** ** The formatter *)

Section Formatter.

Lemma scan_lines_app (st : scan) (a b : list string) :
  scan_lines st (a ++ b) = scan_lines (scan_lines st a) b.
Proof. unfold scan_lines. apply fold_left_app. Qed.

Lemma scan_lines_snoc (st : scan) (a : list string) (l : string) :
  scan_lines st (a ++ [l]) = scan_line (scan_lines st a) l.
Proof. now rewrite scan_lines_app. Qed.

(** Lines outside any fence pass through unchanged. *)
Lemma scan_plain (lines out : list string) :
  Forall (fun l => Py.startswith fence l = false) lines ->
  scan_lines (Scan false [] out) lines = Scan false [] (out ++ lines).
Proof.
  revert out. induction lines as [|l lines IH]; intros out Hall.
  - now rewrite app_nil_r.
  - inversion Hall as [|? ? Hl Hls]; subst. cbn [scan_lines fold_left].
    unfold scan_line at 2. rewrite Hl. cbn [in_code_block code_lines output].
    fold (scan_lines (Scan false [] (out ++ [l])) lines).
    rewrite IH by assumption. now rewrite <- app_assoc.
Qed.

(** A text without marker lines is left as it is. *)
Lemma render_plain (text : string) :
  Forall (fun l => Py.startswith fence l = false) (Py.split Py.newline text) ->
  render_markdown_with_code text = text.
Proof.
  intros Hall. unfold render_markdown_with_code, scan0.
  rewrite scan_plain by assumption. apply join_split.
Qed.

(** A scan that ends inside a fence has emitted exactly what it had
    emitted before the last opening marker. *)
Lemma open_fence_decomposition (lines : list string) :
  in_code_block (scan_lines scan0 lines) = true ->
  exists pre opening body,
    lines = pre ++ opening :: body
    /\ in_code_block (scan_lines scan0 pre) = false
    /\ Py.startswith fence opening = true
    /\ Forall (fun b => Py.startswith fence b = false) body
    /\ output (scan_lines scan0 lines) = output (scan_lines scan0 pre).
Proof.
  induction lines as [|l lines IH] using rev_ind; [discriminate |].
  rewrite scan_lines_snoc. unfold scan_line.
  destruct (Py.startswith fence l) eqn:Hl;
    destruct (in_code_block (scan_lines scan0 lines)) eqn:Hin; simpl;
    try discriminate; intros _.
  - exists lines, l, []. repeat split; auto.
  - destruct (IH eq_refl) as (pre & opening & body & -> & Hpre & Hop & Hbody & Hout).
    exists pre, opening, (body ++ [l]). repeat split; auto.
    + now rewrite <- app_assoc.
    + apply Forall_app; split; [assumption | now constructor].
Qed.

Lemma scan_body (ls cl out : list string) :
  Forall body_line ls ->
  scan_lines (Scan true cl out) ls = Scan true (cl ++ ls) out.
Proof.
  revert cl. induction ls as [|l ls IH]; intros cl Hall; simpl.
  - now rewrite app_nil_r.
  - inversion Hall as [|? ? [_ Hl] Hls]; subst.
    unfold scan_line. rewrite Hl. simpl.
    rewrite IH by assumption. now rewrite <- app_assoc.
Qed.

Lemma stable_plain (l : string) : body_line l -> stable l.
Proof.
  intros [Hc Hm] out. rewrite (split_single _ _ Hc). simpl.
  unfold scan_line. now rewrite Hm.
Qed.

(** The lines of a block: marker with tag, body, marker. *)
Lemma split_fence_block (language code : string) :
  clean_line language ->
  Py.split Py.newline (fence_block language code)
  = (fence +:+ language) :: Py.split Py.newline code ++ [fence].
Proof.
  intros Hl. unfold fence_block, Py.nl.
  replace (fence +:+ language +:+ String Py.newline EmptyString +:+ code
           +:+ String Py.newline EmptyString +:+ fence)
    with ((fence +:+ language)
          +:+ String Py.newline (code +:+ String Py.newline fence))
    by (now rewrite append_assoc).
  rewrite !split_append, split_single; [reflexivity |].
  rewrite contains_append, Hl. reflexivity.
Qed.

Lemma split_join_body (body : list string) :
  Forall body_line body ->
  Py.split Py.newline (Py.join Py.nl body) = reread body.
Proof.
  intros Hall. destruct body as [|b body]; [reflexivity |].
  apply split_join; [discriminate |].
  eapply Forall_impl; [exact Hall |]. now intros ? [? _].
Qed.

Lemma join_reread (body : list string) :
  Py.join Py.nl (reread body) = Py.join Py.nl body.
Proof. now destruct body. Qed.

Lemma reread_body (body : list string) :
  Forall body_line body -> Forall body_line (reread body).
Proof.
  destruct body; [| auto]. intros _. repeat constructor.
Qed.

Lemma scan_open (language : string) (out : list string) :
  Py.strip language = language ->
  scan_line (Scan false [] out) (fence +:+ language)
  = Scan true (if Py.truthy language then [language] else []) out.
Proof.
  intros Hs. unfold scan_line. rewrite startswith_append.
  change (Py.drop 3 (fence +:+ language)) with language.
  rewrite Hs. simpl. now destruct (Py.truthy language).
Qed.

Lemma scan_close (buffered out : list string) :
  scan_line (Scan true buffered out) fence
  = Scan false [] (out ++ [close_fence buffered]).
Proof. reflexivity. Qed.

(** Scanning a block again closes a fence over its tag and body. *)
Lemma rescan_block (language : string) (body out : list string) :
  clean_line language ->
  Py.strip language = language ->
  Forall body_line body ->
  scan_lines (Scan false [] out)
             (Py.split Py.newline (fence_block language (Py.join Py.nl body)))
  = Scan false []
      (out ++ [close_fence ((if Py.truthy language then [language] else [])
                            ++ reread body)]).
Proof.
  intros Hc Hs Hbody.
  rewrite split_fence_block, split_join_body by assumption.
  change ((fence +:+ language) :: reread body ++ [fence])
    with ([fence +:+ language] ++ reread body ++ [fence]).
  rewrite !scan_lines_app.
  change (scan_lines (Scan false [] out) [fence +:+ language])
    with (scan_line (Scan false [] out) (fence +:+ language)).
  rewrite scan_open by assumption.
  rewrite scan_body by now apply reread_body.
  apply scan_close.
Qed.

Lemma stable_block (language : string) (body : list string) :
  clean_line language ->
  Py.strip language = language ->
  Forall body_line body ->
  close_fence ((if Py.truthy language then [language] else []) ++ reread body)
  = fence_block language (Py.join Py.nl body) ->
  stable (fence_block language (Py.join Py.nl body)).
Proof.
  intros Hc Hs Hbody Heq out.
  rewrite rescan_block by assumption. now rewrite Heq.
Qed.

Lemma stable_fence (buffered : list string) :
  Forall body_line buffered -> stable (close_fence buffered).
Proof.
  intros Hall. destruct buffered as [|first rest].
  - apply (stable_block EmptyString []); try reflexivity. constructor.
  - inversion Hall as [|? ? [Hfc Hfm] Hrest]; subst.
    unfold close_fence.
    set (language := if Py.truthy first then Py.strip first else EmptyString).
    assert (Hlc : clean_line language).
    { unfold language. destruct (Py.truthy first); [| reflexivity].
      now apply contains_strip. }
    assert (Hls : Py.strip language = language).
    { unfold language. destruct (Py.truthy first); [| reflexivity].
      apply strip_idem. }
    destruct (Py.truthy language && negb (Py.contains Py.space language)) eqn:Htag.
    + apply stable_block; try assumption.
      apply andb_true_iff in Htag as [Ht Hsp]. rewrite Ht.
      unfold close_fence. simpl app. cbv beta iota.
      rewrite Ht, Hls, Ht, Hsp. simpl tail. now rewrite join_reread.
    + apply (stable_block EmptyString (first :: rest)); try reflexivity;
        [assumption |].
      simpl. unfold close_fence. fold language. now rewrite Htag.
Qed.

(** Scanning the emitted pieces again reproduces them. *)
Lemma rescan_output (pieces out : list string) :
  pieces <> [] ->
  Forall stable pieces ->
  scan_lines (Scan false [] out) (Py.split Py.newline (Py.join Py.nl pieces))
  = Scan false [] (out ++ pieces).
Proof.
  revert out. induction pieces as [|p pieces IH]; [congruence |].
  intros out _ Hall. inversion Hall as [|? ? Hp Hps]; subst.
  destruct pieces as [|q pieces].
  - apply Hp.
  - unfold Py.nl. rewrite join_cons.
    change (String Py.newline EmptyString
            +:+ Py.join (String Py.newline EmptyString) (q :: pieces))
      with (String Py.newline
              (Py.join (String Py.newline EmptyString) (q :: pieces))).
    rewrite split_append, scan_lines_app, Hp.
    fold Py.nl. rewrite IH by (auto; discriminate).
    now rewrite <- app_assoc.
Qed.

Lemma scan_line_tidy (st : scan) (l : string) :
  tidy st ->
  clean_line l ->
  (Py.startswith fence l = true -> in_code_block st = false ->
   Py.startswith fence (Py.strip (Py.drop 3 l)) = false) ->
  tidy (scan_line st l).
Proof.
  intros (Hout & Hbuf & Hnil) Hl Hinfo. unfold scan_line.
  destruct (Py.startswith fence l) eqn:Hm;
    destruct (in_code_block st) eqn:Hin;
    unfold tidy; cbn [in_code_block code_lines output].
  - repeat split; auto.
    apply Forall_app; split; [assumption |].
    constructor; [now apply stable_fence | constructor].
  - repeat split; auto; [| discriminate].
    destruct (Py.truthy (Py.strip (Py.drop 3 l))); [| assumption].
    apply Forall_app; split; [assumption |].
    constructor; [| constructor]. split; [| now apply Hinfo].
    now apply contains_strip, contains_drop.
  - repeat split; auto; [| discriminate].
    apply Forall_app; split; [assumption |]. repeat constructor; assumption.
  - repeat split; auto.
    apply Forall_app; split; [assumption |].
    constructor; [| constructor]. now apply stable_plain.
Qed.

End Formatter.

(** C3.  Formatting the three lines: a bare marker, [hello], a closing
    marker, promotes the body line [hello] to the language tag and leaves
    the fence body empty; the result is not the untagged fence around
    [hello] that the claim describes. *)
Theorem untagged_fence_promotes_body :
  render_markdown_with_code (text_of ["```"; "hello"; "```"])
    = text_of ["```hello"; EmptyString; "```"]
  /\ render_markdown_with_code (text_of ["```"; "hello"; "```"])
    <> text_of ["```"; "hello"; "```"].
Proof. split; [reflexivity | discriminate]. Qed.

(** C5.  Whenever the input ends inside an open fence, its lines split
    into the lines before the last opening marker, that marker line and
    the buffered lines after it, and the result is exactly what the lines
    before the marker produce: the marker line and the buffered lines
    contribute nothing.  In particular the two lines [```py], [abc]
    format to the empty text. *)
Theorem dangling_fence_dropped :
  (forall text : string,
      ends_in_fence text = true ->
      exists pre opening body,
        Py.split Py.newline text = pre ++ opening :: body
        /\ in_code_block (scan_lines scan0 pre) = false
        /\ Py.startswith fence opening = true
        /\ Forall (fun b => Py.startswith fence b = false) body
        /\ render_markdown_with_code text
           = Py.join Py.nl (output (scan_lines scan0 pre))
        /\ (pre <> [] ->
            render_markdown_with_code text
            = render_markdown_with_code (text_of pre)))
  /\ render_markdown_with_code (text_of ["```py"; "abc"]) = EmptyString.
Proof.
  split; [| reflexivity].
  intros text Hin. unfold ends_in_fence in Hin.
  destruct (open_fence_decomposition _ Hin)
    as (pre & opening & body & Hsplit & Hpre & Hop & Hbody & Hout).
  exists pre, opening, body. repeat split; auto.
  - unfold render_markdown_with_code. now rewrite Hout.
  - intros Hne. unfold render_markdown_with_code at 1. rewrite Hout.
    unfold render_markdown_with_code, text_of.
    rewrite split_join; [reflexivity | assumption |].
    pose proof (split_lines_clean Py.newline text) as Hclean.
    rewrite Hsplit in Hclean. apply Forall_app in Hclean as [Hc _]. exact Hc.
Qed.

Lemma dangling_fence_dropped_witness :
  ends_in_fence (text_of ["intro"; "```py"; "abc"]) = true
  /\ exists pre opening body,
       Py.split Py.newline (text_of ["intro"; "```py"; "abc"])
         = pre ++ opening :: body
       /\ render_markdown_with_code (text_of ["intro"; "```py"; "abc"])
          = Py.join Py.nl (output (scan_lines scan0 pre)).
Proof.
  split; [reflexivity |].
  destruct (proj1 dangling_fence_dropped (text_of ["intro"; "```py"; "abc"]) eq_refl)
    as (pre & opening & body & H1 & _ & _ & _ & H2 & _).
  exists pre, opening, body. split; assumption.
Defined.

Lemma scan_lines_tidy (lines : list string) (st : scan) :
  tidy st ->
  Forall clean_line lines ->
  well_formed_lines (in_code_block st) lines = true ->
  tidy (scan_lines st lines).
Proof.
  revert st. induction lines as [|l lines IH]; intros st Hst Hclean Hwf;
    [exact Hst |].
  inversion Hclean as [|? ? Hl Hls]; subst.
  change (scan_lines st (l :: lines)) with (scan_lines (scan_line st l) lines).
  cbn [well_formed_lines] in Hwf.
  assert (Hstep : tidy (scan_line st l)).
  { apply scan_line_tidy; auto. intros Hm Hin. rewrite Hm, Hin in Hwf.
    apply andb_true_iff in Hwf as [Hinfo _]. now apply negb_true_iff. }
  apply IH; auto. unfold scan_line.
  destruct (Py.startswith fence l); destruct (in_code_block st); simpl; auto.
  now apply andb_true_iff in Hwf as [_ ?].
Qed.

(** C4.  On every well-formed text the formatter is idempotent. *)
Theorem format_idempotent (text : string) :
  well_formed text = true ->
  render_markdown_with_code (render_markdown_with_code text)
  = render_markdown_with_code text.
Proof.
  intros Hwf. unfold render_markdown_with_code at 2 3.
  assert (Hstable : Forall stable
                      (output (scan_lines scan0 (Py.split Py.newline text)))).
  { apply scan_lines_tidy; [| apply split_lines_clean | exact Hwf].
    repeat split; constructor. }
  destruct (output (scan_lines scan0 (Py.split Py.newline text)))
    as [|p pieces]; [reflexivity |].
  unfold render_markdown_with_code, scan0.
  now rewrite rescan_output.
Qed.

Lemma format_idempotent_witness :
  let text := text_of ["Intro"; "```py"; "x = 1"; "```"; "```";
                       "hello world"; "```"; "done"] in
  well_formed text = true
  /\ render_markdown_with_code (render_markdown_with_code text)
     = render_markdown_with_code text.
Proof.
  split; [reflexivity |]. apply format_idempotent. reflexivity.
Defined.

(** Outside well-formed text idempotence can fail: an opening line whose
    trailing text starts with a second marker is re-read as a closing
    line. *)
Example nested_marker_not_idempotent :
  let text := text_of ["``` ``` x"; "body"; "```"] in
  well_formed text = false
  /\ render_markdown_with_code text = text_of ["```"; "``` x"; "body"; "```"]
  /\ render_markdown_with_code (render_markdown_with_code text)
     = text_of ["```"; EmptyString; "```"; "body"].
Proof. repeat split. Qed.

(** ** The history store *)

Section JsonFacts.

Import Json.

Lemma scan_escape_char (c : ascii) (s : string) :
  scan_string (escape_char c +:+ s) = cons_char c (scan_string s).
Proof. destruct c as [[] [] [] [] [] [] [] []]; reflexivity. Qed.

(** A string literal reads back as the text it was written from. *)
Lemma scan_string_escape (s rest : string) :
  scan_string (escape s +:+ String dquote rest) = Parsed s rest.
Proof.
  induction s as [|c s IH]; [reflexivity |].
  cbn [escape]. now rewrite append_assoc, scan_escape_char, IH.
Qed.

Lemma skip_ws_spaces (n : nat) (s : string) :
  skip_ws (spaces n +:+ s) = skip_ws s.
Proof. induction n as [|n IH]; [reflexivity | exact IH]. Qed.

Lemma skip_ws_indent (level : nat) (s : string) :
  skip_ws (newline_indent level +:+ s) = skip_ws s.
Proof.
  unfold newline_indent. rewrite append_assoc.
  exact (skip_ws_spaces (2 * level) s).
Qed.

Lemma encode_head (level : nat) (v : value) (rest : string) :
  value_head (encode level v +:+ rest).
Proof.
  destruct v as [| [] | s | [|x xs] | [|kv kvs]]; repeat split.
Qed.

Lemma skip_ws_head (s : string) : value_head s -> skip_ws s = s.
Proof. destruct s as [|c s]; [easy |]. simpl. now intros [-> _]. Qed.

Lemma join_append (sep a tail : string) (rest : list string) :
  Py.join sep (a :: rest) +:+ tail
  = a +:+ match rest with
          | [] => tail
          | _ :: _ => sep +:+ (Py.join sep rest +:+ tail)
          end.
Proof.
  destruct rest as [|b rest]; [reflexivity |].
  rewrite join_cons. now rewrite !append_assoc.
Qed.

Lemma encode_array (level : nat) (x : value) (xs : list value) (rest : string) :
  encode level (VList (x :: xs)) +:+ rest
  = String "[" (newline_indent (S level)
                +:+ (Py.join (item_sep level)
                             (List.map (encode (S level)) (x :: xs))
                     +:+ (newline_indent level +:+ String "]" rest))).
Proof.
  cbn [encode]. fold (item_sep level). rewrite !append_assoc. reflexivity.
Qed.

Lemma encode_object (level : nat) (kv : string * value)
    (kvs : list (string * value)) (rest : string) :
  encode level (VDict (kv :: kvs)) +:+ rest
  = String "{" (newline_indent (S level)
                +:+ (Py.join (item_sep level)
                             (List.map (member_text level) (kv :: kvs))
                     +:+ (newline_indent level +:+ String "}" rest))).
Proof.
  cbn [encode]. fold (item_sep level). rewrite !append_assoc. reflexivity.
Qed.

Lemma member_text_append (level : nat) (k : string) (v : value) (rest : string) :
  member_text level (k, v) +:+ rest
  = String dquote
      (escape k
       +:+ String dquote (String ":" (String " " (encode (S level) v +:+ rest)))).
Proof.
  unfold member_text, quote. cbn [fst snd String.append].
  rewrite !append_assoc. reflexivity.
Qed.

Lemma dict_set_fresh (k : string) (v : value) (d : list (string * value)) :
  ~ In k (List.map fst d) -> dict_set k v d = d ++ [(k, v)].
Proof.
  induction d as [|[k' v'] d IH]; intros Hfresh; [reflexivity |].
  cbn [dict_set]. destruct (String.eqb_spec k' k) as [-> | Hne].
  - exfalso. apply Hfresh. now left.
  - cbn [app]. rewrite IH; [reflexivity |]. intros Hin. apply Hfresh. now right.
Qed.

Lemma member_head (level : nat) (kv : string * value) (rest : string) :
  value_head (member_text level kv +:+ rest).
Proof. destruct kv. rewrite member_text_append. repeat split. Qed.

(** One step of each parser function. *)
Lemma parse_string_step (fuel : nat) (r : string) :
  parse_value (S fuel) (String dquote r)
  = match scan_string r with
    | Parsed str rest => Parsed (VStr str) rest
    | Malformed => Malformed
    | Unsupported => Unsupported
    end.
Proof. reflexivity. Qed.

Lemma parse_array_step (fuel : nat) (body s : string) :
  skip_ws body = s -> value_head s ->
  parse_value (S fuel) (String "[" body) = parse_elements fuel s [].
Proof.
  intros Hskip Hhead.
  change (parse_value (S fuel) (String "[" body))
    with (match skip_ws body with
          | String c1 r1 =>
              if Ascii.eqb c1 "]" then Parsed (VList []) r1
              else parse_elements fuel (String c1 r1) []
          | EmptyString => Malformed
          end).
  rewrite Hskip. destruct s as [|c r]; [easy |].
  now destruct Hhead as (_ & -> & _).
Qed.

Lemma parse_object_step (fuel : nat) (body s : string) :
  skip_ws body = s -> value_head s ->
  parse_value (S fuel) (String "{" body) = parse_members fuel s [].
Proof.
  intros Hskip Hhead.
  change (parse_value (S fuel) (String "{" body))
    with (match skip_ws body with
          | String c1 r1 =>
              if Ascii.eqb c1 "}" then Parsed (VDict []) r1
              else parse_members fuel (String c1 r1) []
          | EmptyString => Malformed
          end).
  rewrite Hskip. destruct s as [|c r]; [easy |].
  now destruct Hhead as (_ & _ & ->).
Qed.

Lemma parse_elements_step (fuel : nat) (s : string) (acc : list value)
    (v : value) (level : nat) (more : list string) (rest : string) :
  parse_value fuel s = Parsed v (after_item level "]" more rest) ->
  parse_elements (S fuel) s acc
  = match more with
    | [] => Parsed (VList (acc ++ [v])) rest
    | _ :: _ =>
        parse_elements fuel
          (skip_ws (Py.join (item_sep level) more
                    +:+ (newline_indent level +:+ String "]" rest)))
          (acc ++ [v])
    end.
Proof.
  intros Hv.
  change (parse_elements (S fuel) s acc)
    with (match parse_value fuel s with
          | Parsed v rest =>
              match skip_ws rest with
              | String c r =>
                  if Ascii.eqb c "]" then Parsed (VList (acc ++ [v])) r
                  else if Ascii.eqb c "," then
                    parse_elements fuel (skip_ws r) (acc ++ [v])
                  else Malformed
              | EmptyString => Malformed
              end
          | Malformed => Malformed
          | Unsupported => Unsupported
          end).
  rewrite Hv. unfold after_item. destruct more as [|m more].
  - now rewrite skip_ws_indent.
  - unfold item_sep at 1.
    change (("," +:+ newline_indent (S level)) +:+ ?x)
      with (String "," (newline_indent (S level) +:+ x)).
    cbn [skip_ws]. change (is_ws ",") with false. cbv iota.
    change (Ascii.eqb "," "]") with false.
    change (Ascii.eqb "," ",") with true. cbv iota.
    now rewrite skip_ws_indent.
Qed.

Lemma parse_members_step (fuel : nat) (k : string) (s : string)
    (acc : list (string * value)) (v : value) (level : nat)
    (more : list string) (rest : string) :
  value_head s ->
  parse_value fuel s = Parsed v (after_item level "}" more rest) ->
  parse_members (S fuel)
    (String dquote (escape k +:+ String dquote (String ":" (String " " s))))
    acc
  = match more with
    | [] => Parsed (VDict (dict_set k v acc)) rest
    | _ :: _ =>
        parse_members fuel
          (skip_ws (Py.join (item_sep level) more
                    +:+ (newline_indent level +:+ String "}" rest)))
          (dict_set k v acc)
    end.
Proof.
  intros Hhead Hv.
  match goal with
  | |- parse_members _ (String _ ?r) _ = _ =>
      change (parse_members (S fuel) (String dquote r) acc)
        with (match scan_string r with
              | Parsed key rest =>
                  match skip_ws rest with
                  | String colon r1 =>
                      if Ascii.eqb colon ":" then
                        match parse_value fuel (skip_ws r1) with
                        | Parsed v rest' =>
                            match skip_ws rest' with
                            | String c r2 =>
                                if Ascii.eqb c "}"
                                then Parsed (VDict (dict_set key v acc)) r2
                                else if Ascii.eqb c "," then
                                  parse_members fuel (skip_ws r2)
                                                (dict_set key v acc)
                                else Malformed
                            | EmptyString => Malformed
                            end
                        | Malformed => Malformed
                        | Unsupported => Unsupported
                        end
                      else Malformed
                  | EmptyString => Malformed
                  end
              | Malformed => Malformed
              | Unsupported => Unsupported
              end)
  end.
  rewrite scan_string_escape.
  change (skip_ws (String ":" (String " " s))) with (String ":" (String " " s)).
  cbv iota. change (Ascii.eqb ":" ":") with true. cbv iota.
  change (skip_ws (String " " s)) with (skip_ws s).
  rewrite (skip_ws_head _ Hhead), Hv.
  unfold after_item. destruct more as [|m more].
  - now rewrite skip_ws_indent.
  - unfold item_sep at 1.
    change (("," +:+ newline_indent (S level)) +:+ ?x)
      with (String "," (newline_indent (S level) +:+ x)).
    cbn [skip_ws]. change (is_ws ",") with false. cbv iota.
    change (Ascii.eqb "," "}") with false.
    change (Ascii.eqb "," ",") with true. cbv iota.
    now rewrite skip_ws_indent.
Qed.

Lemma join_after_item (level : nat) (closer : ascii) (a : string)
    (more : list string) (rest : string) :
  Py.join (item_sep level) (a :: more)
  +:+ (newline_indent level +:+ String closer rest)
  = a +:+ after_item level closer more rest.
Proof. apply join_append. Qed.

(** Parsing the text of a value, of the items of an array and of the
    members of an object, each followed by arbitrary text. *)
Lemma parse_encode (fuel : nat) :
  (forall v level rest,
      distinct_keys v -> size v <= fuel ->
      parse_value fuel (encode level v +:+ rest) = Parsed v rest)
  /\ (forall items acc level rest,
        items <> [] -> all_distinct items -> sizes items <= fuel ->
        parse_elements fuel
          (Py.join (item_sep level) (List.map (encode (S level)) items)
           +:+ (newline_indent level +:+ String "]" rest)) acc
        = Parsed (VList (acc ++ items)) rest)
  /\ (forall items acc level rest,
        items <> [] -> members_distinct items ->
        NoDup (List.map fst (acc ++ items)) ->
        member_sizes items <= fuel ->
        parse_members fuel
          (Py.join (item_sep level) (List.map (member_text level) items)
           +:+ (newline_indent level +:+ String "}" rest)) acc
        = Parsed (VDict (acc ++ items)) rest).
Proof.
  induction fuel as [|fuel (IHv & IHe & IHm)].
  { repeat split.
    - intros v ? ? _ Hsize. destruct v; cbn [size] in Hsize; lia.
    - intros [|x xs] ? ? ? Hne _ Hsize; [congruence |].
      cbn [sizes fold_right] in Hsize. lia.
    - intros [|x xs] ? ? ? Hne _ _ Hsize; [congruence |].
      cbn [member_sizes fold_right] in Hsize. lia. }
  repeat split.
  - intros v level rest Hkeys Hsize.
    destruct v as [| [] | s | [|x xs] | [|kv kvs]]; try reflexivity.
    + (* string *)
      cbn [encode]. unfold quote.
      change (String dquote (escape s +:+ String dquote EmptyString) +:+ rest)
        with (String dquote ((escape s +:+ String dquote EmptyString) +:+ rest)).
      rewrite append_assoc.
      change (String dquote EmptyString +:+ rest) with (String dquote rest).
      now rewrite parse_string_step, scan_string_escape.
    + (* array *)
      rewrite encode_array.
      rewrite (parse_array_step fuel _
                 (Py.join (item_sep level)
                          (List.map (encode (S level)) (x :: xs))
                  +:+ (newline_indent level +:+ String "]" rest))).
      * apply IHe; [discriminate | exact Hkeys |].
        cbn [size] in Hsize. unfold sizes. lia.
      * rewrite skip_ws_indent. cbn [List.map]. rewrite join_after_item.
        apply skip_ws_head, encode_head.
      * cbn [List.map]. rewrite join_after_item. apply encode_head.
    + (* object *)
      rewrite encode_object.
      rewrite (parse_object_step fuel _
                 (Py.join (item_sep level)
                          (List.map (member_text level) (kv :: kvs))
                  +:+ (newline_indent level +:+ String "}" rest))).
      * destruct Hkeys as [Hnodup Hvalues].
        apply IHm; [discriminate | exact Hvalues | exact Hnodup |].
        cbn [size] in Hsize. unfold member_sizes. lia.
      * rewrite skip_ws_indent. cbn [List.map]. rewrite join_after_item.
        apply skip_ws_head, member_head.
      * cbn [List.map]. rewrite join_after_item. apply member_head.
  - (* the items of an array *)
    intros [|x xs] acc level rest Hne Hkeys Hsize; [congruence |].
    destruct Hkeys as [Hx Hxs]. cbn [sizes fold_right] in Hsize.
    cbn [List.map]. rewrite join_after_item.
    rewrite (parse_elements_step fuel _ acc x level
               (List.map (encode (S level)) xs) rest);
      [| apply IHv; [exact Hx | lia]].
    destruct xs as [|y ys]; [reflexivity |].
    cbn [List.map].
    rewrite join_after_item, (skip_ws_head _ (encode_head _ _ _)),
      <- join_after_item.
    change (encode (S level) y :: List.map (encode (S level)) ys)
      with (List.map (encode (S level)) (y :: ys)).
    rewrite IHe; [now rewrite <- app_assoc | discriminate | exact Hxs |].
    fold (sizes (y :: ys)) in Hsize. lia.
  - (* the members of an object *)
    intros [|[k v] kvs] acc level rest Hne Hkeys Hnodup Hsize; [congruence |].
    destruct Hkeys as [Hv Hkvs]. cbn [member_sizes fold_right snd] in Hsize.
    assert (Hfresh : ~ In k (List.map fst acc)).
    { rewrite map_app in Hnodup. cbn [List.map fst] in Hnodup.
      apply NoDup_app in Hnodup as (_ & Hdisjoint & _).
      intros Hin. apply list_elem_of_In in Hin.
      apply (Hdisjoint k Hin). now left. }
    cbn [List.map]. rewrite join_after_item, member_text_append.
    rewrite (parse_members_step fuel k _ acc v level
               (List.map (member_text level) kvs) rest);
      [| apply encode_head | apply IHv; [exact Hv | lia]].
    rewrite (dict_set_fresh _ _ _ Hfresh).
    destruct kvs as [|kv' kvs']; [reflexivity |].
    cbn [List.map].
    rewrite join_after_item, (skip_ws_head _ (member_head _ _ _)),
      <- join_after_item.
    change (member_text level kv' :: List.map (member_text level) kvs')
      with (List.map (member_text level) (kv' :: kvs')).
    rewrite IHm; [now rewrite <- app_assoc | discriminate | exact Hkvs | |].
    + now rewrite <- app_assoc.
    + fold (member_sizes (kv' :: kvs')) in Hsize. lia.
Qed.

Lemma item_sep_length (level : nat) : 1 <= String.length (item_sep level).
Proof. unfold item_sep. cbn [String.append String.length]. lia. Qed.

Lemma join_length (sep : string) (texts : list string) (weights : list nat) :
  1 <= String.length sep ->
  Forall2 (fun t n => n <= String.length t) texts weights ->
  fold_right (fun n m => S (n + m)) 0 weights
  <= String.length (Py.join sep texts) + 1.
Proof.
  intros Hsep Hall. induction Hall as [|t n texts weights Ht Hts IH].
  - cbn. lia.
  - cbn [fold_right]. destruct Hts as [|t' n' texts' weights' Ht' Hts'].
    + cbn [fold_right Py.join String.concat]. lia.
    + rewrite join_cons, !length_append. lia.
Qed.

(** The text of a value is at least as long as the calls it needs. *)
Lemma size_le_length (bound : nat) :
  forall v level, size v <= bound -> size v <= String.length (encode level v).
Proof.
  induction bound as [|bound IH]; intros v level Hbound.
  { destruct v; cbn [size] in Hbound; lia. }
  destruct v as [| [] | s | [|x xs] | [|kv kvs]];
    try (cbn [size encode String.length fold_right]; lia).
  - unfold encode, quote. cbn [size String.length]. lia.
  - assert (Hitems : Forall2 (fun t n => n <= String.length t)
                             (List.map (encode (S level)) (x :: xs))
                             (List.map size (x :: xs))).
    { cbn [size] in Hbound. revert Hbound.
      generalize (x :: xs). intros items. induction items as [|y ys IHys];
        intros Hbound; cbn [List.map]; constructor.
      - apply IH. cbn [fold_right] in Hbound. lia.
      - apply IHys. cbn [fold_right] in Hbound. lia. }
    pose proof (join_length _ _ _ (item_sep_length level) Hitems) as Hjoin.
    rewrite <- (append_nil_r (encode level (VList (x :: xs)))).
    rewrite encode_array. cbn [size String.length].
    rewrite !length_append. unfold newline_indent at 1.
    cbn [String.length String.append Py.nl].
    replace (fold_right (fun x0 n => S (size x0 + n)) 0 (x :: xs))
      with (fold_right (fun n m => S (n + m)) 0 (List.map size (x :: xs)));
      [lia |].
    generalize (x :: xs). intros items.
    induction items as [|y ys IHys]; cbn [List.map fold_right];
      [reflexivity | now rewrite IHys].
  - assert (Hitems : Forall2 (fun t n => n <= String.length t)
                             (List.map (member_text level) (kv :: kvs))
                             (List.map (fun kv => size (snd kv)) (kv :: kvs))).
    { cbn [size] in Hbound. revert Hbound.
      generalize (kv :: kvs). intros items. induction items as [|y ys IHys];
        intros Hbound; cbn [List.map]; constructor.
      - unfold member_text. rewrite !length_append.
        assert (size (snd y) <= String.length (encode (S level) (snd y)))
          by (apply IH; cbn [fold_right] in Hbound; lia).
        lia.
      - apply IHys. cbn [fold_right] in Hbound. lia. }
    pose proof (join_length _ _ _ (item_sep_length level) Hitems) as Hjoin.
    rewrite <- (append_nil_r (encode level (VDict (kv :: kvs)))).
    rewrite encode_object. cbn [size String.length].
    rewrite !length_append. unfold newline_indent at 1.
    cbn [String.length String.append Py.nl].
    replace (fold_right (fun kv0 n => S (size (snd kv0) + n)) 0 (kv :: kvs))
      with (fold_right (fun n m => S (n + m)) 0
                       (List.map (fun kv => size (snd kv)) (kv :: kvs)));
      [lia |].
    generalize (kv :: kvs). intros items.
    induction items as [|y ys IHys]; cbn [List.map fold_right];
      [reflexivity | now rewrite IHys].
Qed.

(** Reading back what was written. *)
Lemma loads_dumps (v : value) :
  distinct_keys v -> loads (dumps v) = Parsed v EmptyString.
Proof.
  intros Hkeys. unfold loads, dumps.
  pose proof (encode_head 0 v EmptyString) as Hhead.
  rewrite append_nil_r in Hhead. rewrite (skip_ws_head _ Hhead).
  rewrite <- (append_nil_r (encode 0 v)) at 2.
  rewrite (proj1 (parse_encode _)); [reflexivity | exact Hkeys |].
  pose proof (size_le_length (size v) v 0). lia.
Qed.

Lemma message_value_distinct (m : Message) : distinct_keys (message_value m).
Proof.
  destruct m as [r c [b|]]; cbn; (split; [| tauto]);
    apply (bool_decide_unpack _); reflexivity.
Qed.

Lemma chat_value_distinct (c : Chat.t) : distinct_keys (chat_value c).
Proof.
  destruct c as [n ms t m]. cbn. split.
  - apply (bool_decide_unpack _); reflexivity.
  - repeat split. induction ms as [|x ms IH]; cbn; [exact I |].
    split; [apply message_value_distinct | exact IH].
Qed.

Lemma history_value_distinct (h : list Chat.t) :
  distinct_keys (history_value h).
Proof.
  unfold history_value. cbn [distinct_keys].
  induction h as [|c h IH]; cbn [List.map fold_right]; [exact I |].
  split; [apply chat_value_distinct | exact IH].
Qed.

Lemma role_name_inj (a b : Role) : role_name a = role_name b -> a = b.
Proof. destruct a, b; (reflexivity || discriminate). Qed.

Lemma message_value_inj (a b : Message) :
  message_value a = message_value b -> a = b.
Proof.
  destruct a as [ra ca [fa|]], b as [rb cb [fb|]]; cbn; intros [=];
    subst; f_equal; auto using role_name_inj.
Qed.

Lemma map_inj {A B : Type} (f : A -> B) :
  (forall a b, f a = f b -> a = b) ->
  forall l l', List.map f l = List.map f l' -> l = l'.
Proof.
  intros Hf l. induction l as [|x l IH]; intros [|y l']; cbn; intros [=];
    [reflexivity |]. f_equal; auto.
Qed.

Lemma chat_value_inj (a b : Chat.t) : chat_value a = chat_value b -> a = b.
Proof.
  destruct a as [na ma ta oa], b as [nb mb tb ob]; cbn. intros [=]; subst.
  f_equal. eapply map_inj; [apply message_value_inj | eassumption].
Qed.

End JsonFacts.

(** What loading returns for each state of the user's file. *)
Section Store.

Variables (stored : gmap string file) (user : string).

Lemma load_absent :
  stored !! get_user_history_file user = None ->
  load_history stored user = Returns (Json.VList []).
Proof. intros Habsent. unfold load_history. now rewrite Habsent. Qed.

Lemma load_malformed (s : string) :
  stored !! get_user_history_file user = Some (Text s) ->
  Json.loads s = Json.Malformed ->
  load_history stored user = Returns (Json.VList []).
Proof.
  intros Hfile Hbad. unfold load_history. rewrite Hfile. cbn [read_json].
  now rewrite Hbad.
Qed.

Lemma load_undecodable :
  stored !! get_user_history_file user = Some NotUtf8 ->
  load_history stored user = Raises UnicodeDecodeError.
Proof. intros Hfile. unfold load_history. now rewrite Hfile. Qed.

Lemma load_denied :
  stored !! get_user_history_file user = Some NoAccess ->
  load_history stored user = Raises PermissionError.
Proof. intros Hfile. unfold load_history. now rewrite Hfile. Qed.

Lemma load_saved (records : list Chat.t) :
  load_history (save_history stored user records) user
  = Returns (history_value records).
Proof.
  unfold load_history, save_history.
  rewrite lookup_insert_eq. cbn [read_json].
  now rewrite loads_dumps by apply history_value_distinct.
Qed.

End Store.

(** C7.  Saving a non-empty record list for a user and loading it back
    for that user returns the Python value of that very list, and record
    lists with the same value are equal; loading when the user has no file
    returns the empty list. *)
Theorem history_round_trip :
  (forall (stored : gmap string file) (user : string) (records : list Chat.t),
      records <> [] ->
      load_history (save_history stored user records) user
      = Returns (history_value records))
  /\ (forall records records' : list Chat.t,
        history_value records = history_value records' -> records = records')
  /\ (forall (stored : gmap string file) (user : string),
        stored !! get_user_history_file user = None ->
        load_history stored user = Returns (Json.VList [])).
Proof.
  repeat apply conj.
  - intros stored user records _. apply load_saved.
  - intros records records' [= Heq].
    eapply map_inj; [apply chat_value_inj | exact Heq].
  - intros stored user. apply load_absent.
Qed.

Lemma history_round_trip_witness :
  let records :=
    [Chat.Make "hi" [Msg User "hi" None; Msg Assistant "Hello" (Some true)]
               "2024-05-01 10:00" "m"] in
  records <> []
  /\ load_history (save_history ∅ "u" records) "u"
     = Returns (history_value records)
  /\ (∅ : gmap string file) !! get_user_history_file "u" = None
  /\ load_history ∅ "u" = Returns (Json.VList []).
Proof.
  intros records. split; [discriminate |]. split.
  - apply (proj1 history_round_trip). discriminate.
  - split; [reflexivity |].
    apply (proj2 (proj2 history_round_trip)). reflexivity.
Defined.

(** C8.  A file that cannot be opened, or whose bytes are not UTF-8,
    makes loading raise: only malformed JSON text and a missing file give
    the empty list. *)
Theorem load_history_propagates_read_errors :
  load_history {[get_user_history_file "u" := NotUtf8]} "u"
  = Raises UnicodeDecodeError
  /\ load_history {[get_user_history_file "u" := NoAccess]} "u"
     = Raises PermissionError
  /\ load_history {[get_user_history_file "u" := Text "{not json"]} "u"
     = Returns (Json.VList [])
  /\ load_history ∅ "u" = Returns (Json.VList []).
Proof. repeat split. Qed.

(** ** The streaming controller *)

Section Controller.

(** The model chosen in the side bar and the time of the run. *)
Variables (selected_model now : string).

Lemma consume_yields (chunks : list Chunk) (acc : string) (rest : list event) :
  consume false acc (List.map Yield chunks ++ rest)
  = consume false (acc +:+ concat_deltas chunks) rest.
Proof.
  revert acc. induction chunks as [|c chunks IH]; intros acc; simpl.
  - now rewrite append_nil_r.
  - now rewrite IH, append_assoc.
Qed.

Lemma consume_stops (k : nat) (acc : string) (rest : list event) (stop : bool) :
  consume stop acc (repeat StopPressed (S k) ++ rest) = consume true acc rest.
Proof.
  revert stop. induction k as [|k IH]; intros stop; [reflexivity |].
  exact (IH true).
Qed.

(** Once the flag is set nothing more is accumulated. *)
Lemma consume_stopped (acc : string) (events : list event) :
  throw_free events = true -> fst (consume true acc events) = acc.
Proof.
  induction events as [|[c| |e] events IH]; cbn; auto. discriminate.
Qed.


Lemma consume_throw (stop : bool) (acc e : string) (rest : list event) :
  consume stop acc (Throw e :: rest) = ("**Error:** " +:+ e, rest).
Proof. reflexivity. Qed.


Lemma stream_queued (events : list event) (w : world) (request : Request.t) :
  to_stream (state w) = Some request ->
  stream selected_model now events w
  = finalize selected_model now
             (fst (consume (stop_requested (state w)) EmptyString events)) w.
Proof. unfold stream. now intros ->. Qed.



(** The final block completes whenever the current index is nil or
    designates a record: the reply is appended, the current record holds
    the new message list, the history is saved and the queue cleared. *)
Lemma finalize_completes (full : string) (w : world) :
  match current_idx (state w) with
  | None => True
  | Some i => i < length (chat_history (state w))
  end ->
  exists w' j record,
    finalize selected_model now full w = Done w'
    /\ messages (state w')
       = messages (state w)
         ++ [Msg Assistant (render_markdown_with_code full) (Some true)]
    /\ current_idx (state w') = Some j
    /\ chat_history (state w') !! j = Some record
    /\ Chat.messages record = messages (state w')
    /\ Chat.timestamp record = now
    /\ Chat.model record = selected_model
    /\ files w'
       = save_history (files w) (user_id (state w)) (chat_history (state w'))
    /\ to_stream (state w') = None
    /\ stop_requested (state w') = false.
Proof.
  intros Hrange. unfold finalize.
  destruct (current_idx (state w)) as [i|].
  - destruct (lookup_lt_is_Some_2 _ _ Hrange) as [old Hold]. rewrite Hold.
    eexists _, i, _. split; [reflexivity |].
    cbn [state messages chat_history files to_stream stop_requested
         current_idx].
    rewrite list_lookup_insert_eq by assumption. repeat split.
  - eexists _, (length (chat_history (state w))), _. split; [reflexivity |].
    cbn [state messages chat_history files to_stream stop_requested
         current_idx].
    rewrite length_app. cbn [length].
    rewrite list_lookup_middle by reflexivity.
    repeat split. f_equal. lia.
Qed.



End Controller.





(** X21.  In a run that starts with the flag down and a current index
    that is nil or designates a record, a stream that raises has whatever
    was accumulated replaced by the error text, nothing after the failure
    is requested again, and the turn ends exactly as the turn of a stream
    that delivers the error text as its only chunk and completes: the
    error text, formatted like any reply (and unchanged by that when none
    of its lines starts with the fence marker), becomes the assistant
    message, the updated history is saved and the queue is cleared. *)
Theorem stream_error_becomes_reply
    (selected_model now e : string) (before : list Chunk) (presses : nat)
    (rest : list event) (w : world) (request : Request.t) :
  to_stream (state w) = Some request ->
  stop_requested (state w) = false ->
  index_in_range (state w) ->
  let error_text := "**Error:** " +:+ e in
  let events :=
    List.map Yield before ++ repeat StopPressed presses ++ Throw e :: rest in
  consume false EmptyString events = (error_text, rest)
  /\ stream selected_model now events w
     = stream selected_model now [Yield (chunk_of error_text)] w
  /\ exists w' j record,
       stream selected_model now events w = Done w'
       /\ messages (state w')
          = messages (state w)
            ++ [Msg Assistant (render_markdown_with_code error_text)
                    (Some true)]
       /\ (Forall (fun l => Py.startswith fence l = false)
                  (Py.split Py.newline error_text) ->
           last (messages (state w'))
           = Some (Msg Assistant error_text (Some true)))
       /\ current_idx (state w') = Some j
       /\ chat_history (state w') !! j = Some record
       /\ Chat.messages record = messages (state w')
       /\ files w'
          = save_history (files w) (user_id (state w))
                         (chat_history (state w'))
       /\ load_history (files w') (user_id (state w))
          = Returns (history_value (chat_history (state w')))
       /\ to_stream (state w') = None
       /\ stop_requested (state w') = false.
Proof.
  intros Hq Hstop Hrange error_text events.
  assert (Hloop : consume false EmptyString events = (error_text, rest)).
  { subst events. rewrite consume_yields.
    destruct presses as [|k]; [reflexivity |].
    now rewrite consume_stops. }
  assert (Hrun : stream selected_model now events w
                 = finalize selected_model now error_text w).
  { now rewrite (stream_queued _ _ _ _ _ Hq), Hstop, Hloop. }
  split; [exact Hloop |]. split.
  - rewrite Hrun, (stream_queued _ _ _ _ _ Hq), Hstop. reflexivity.
  - rewrite Hrun.
    destruct (finalize_completes selected_model now error_text w Hrange)
      as (w' & j & record & Hdone & Hm & Hj & Hrec & Hrm & _ & _ & Hf & Hq' & Hs').
    exists w', j, record. repeat split; try assumption.
    + intros Hplain. rewrite Hm, (render_plain _ Hplain). apply last_snoc.
    + rewrite Hf. apply load_saved.
Qed.

Lemma stream_error_becomes_reply_witness :
  let w := World ∅ (Session "u" [] [Msg User "hi" None] None
                            (Some (Request.Make "m" [Msg User "hi" None]))
                            false "be terse" None) in
  consume false EmptyString
          [Yield (chunk_of "He"); Throw "connection refused";
           Yield (chunk_of "llo")]
  = ("**Error:** connection refused", [Yield (chunk_of "llo")]).
Proof.
  intros w.
  exact (proj1 (stream_error_becomes_reply "m" "now" "connection refused"
                  [chunk_of "He"] 0 [Yield (chunk_of "llo")] w
                  (Request.Make "m" [Msg User "hi" None])
                  eq_refl eq_refl I)).
Defined.

(** X22.  A turn that ends while the current index designates a record
    replaces that record in place: the history keeps its length, every
    other entry is untouched, and the entry at the current index gets the
    new messages, time stamp and model while keeping its name. *)
Theorem active_conversation_updated_in_place
    (selected_model now : string) (events : list event) (w : world)
    (request : Request.t) (i : nat) (old : Chat.t) :
  to_stream (state w) = Some request ->
  current_idx (state w) = Some i ->
  chat_history (state w) !! i = Some old ->
  let full := fst (consume (stop_requested (state w)) EmptyString events) in
  let messages' :=
    messages (state w)
    ++ [Msg Assistant (render_markdown_with_code full) (Some true)] in
  let record := Chat.Make (Chat.name old) messages' now selected_model in
  exists w',
    stream selected_model now events w = Done w'
    /\ chat_history (state w') = <[i := record]> (chat_history (state w))
    /\ length (chat_history (state w')) = length (chat_history (state w))
    /\ chat_history (state w') !! i = Some record
    /\ Chat.name record = Chat.name old
    /\ (forall j, j <> i ->
          chat_history (state w') !! j = chat_history (state w) !! j)
    /\ current_idx (state w') = Some i
    /\ messages (state w') = messages'
    /\ files w'
       = save_history (files w) (user_id (state w)) (chat_history (state w')).
Proof.
  intros Hq Hidx Hold full messages' record.
  rewrite (stream_queued _ _ _ _ _ Hq). fold full.
  unfold finalize. rewrite Hidx, Hold. fold messages'. fold record.
  eexists. split; [reflexivity |].
  cbn [state chat_history current_idx messages files].
  repeat split.
  - apply length_insert.
  - apply list_lookup_insert_eq. now apply lookup_lt_Some with old.
  - intros j Hj. now apply list_lookup_insert_ne.
Qed.

Lemma active_conversation_updated_in_place_witness :
  let first := Chat.Make "first" [] "t0" "m" in
  let second := Chat.Make "second" [Msg User "hi" None] "t1" "m" in
  let w := World ∅ (Session "u" [first; second]
                            [Msg User "hi" None; Msg User "more" None]
                            (Some 1)
                            (Some (Request.Make "m" []))
                            false "be terse" None) in
  exists w',
    stream "m2" "t2" [Yield (chunk_of "ok")] w = Done w'
    /\ chat_history (state w')
       = [first;
          Chat.Make "second"
                    [Msg User "hi" None; Msg User "more" None;
                     Msg Assistant "ok" (Some true)] "t2" "m2"].
Proof.
  intros first second w.
  destruct (active_conversation_updated_in_place
              "m2" "t2" [Yield (chunk_of "ok")] w (Request.Make "m" []) 1
              second eq_refl eq_refl eq_refl)
    as (w' & Hdone & Hhistory & _).
  exists w'. split; [exact Hdone | exact Hhistory].
Defined.

(** A stale index: nothing is designated and the final block fails with
    the reply appended but the queue still set. *)
Lemma stale_index_raises (selected_model now full : string) (w : world)
    (i : nat) :
  current_idx (state w) = Some i ->
  length (chat_history (state w)) <= i ->
  exists w',
    finalize selected_model now full w = Failed IndexError w'
    /\ files w' = files w
    /\ chat_history (state w') = chat_history (state w)
    /\ to_stream (state w') = to_stream (state w).
Proof.
  intros Hidx Hlen. unfold finalize. rewrite Hidx.
  rewrite (proj2 (lookup_ge_None _ _) Hlen).
  eexists. repeat split.
Qed.

(** C9.  The record at the current index is not always there to be
    replaced.  With two records saved, the second is loaded, the first is
    deleted (which leaves the current index at 1, past the end of the
    one-record history), and a message is sent: the run that streams the
    reply appends it to the working messages and then stops with
    IndexError where the record would be replaced.  The record keeps its
    old messages, nothing is written to the file, and the request stays
    queued. *)
Theorem stale_index_turn_not_recorded :
  let first :=
    Chat.Make "first" [Msg User "one" None; Msg Assistant "1" (Some true)]
              "t0" "m" in
  let second :=
    Chat.Make "second" [Msg User "two" None; Msg Assistant "2" (Some true)]
              "t1" "m" in
  let w0 := World (save_history ∅ "u" [first; second])
                  (Session "u" [first; second] [] None None false "p" None) in
  let press (b : button) := Run.Make None "m" "p" (Some b) "" "t2" [] in
  let typed := Run.Make None "m" "p" None "more" "t2" [] in
  let streamed := Run.Make None "m" "p" None "" "t3" [Yield (chunk_of "ok")] in
  let w1 := world_of (script (press (LoadButton 1)) w0) in
  let w2 := world_of (script (press (DeleteButton 0)) w1) in
  let w3 := world_of (script typed w2) in
  let w4 := world_of (script streamed w3) in
  script (press (LoadButton 1)) w0 = Done w1
  /\ current_idx (state w1) = Some 1
  /\ script (press (DeleteButton 0)) w1 = Done w2
  /\ current_idx (state w2) = Some 1
  /\ chat_history (state w2) = [second]
  /\ script typed w2 = Done w3
  /\ script streamed w3 = Failed IndexError w4
  /\ messages (state w4)
     = Chat.messages second
       ++ [Msg User "more" None; Msg Assistant "ok" (Some true)]
  /\ chat_history (state w4) = [second]
  /\ load_history (files w4) "u" = Returns (history_value [second])
  /\ is_Some (to_stream (state w4)).
Proof. vm_compute. repeat split. eexists. reflexivity. Qed.

(** C6.  The error text does not always become a stored message.  In the
    same session (second record loaded, first record deleted, a message
    sent) a stream that raises has its error text computed and appended
    to the working messages, but the run then stops with IndexError where
    the record would be replaced: the error text is not saved, the
    request stays queued, and the next run sends it to the model again. *)
Theorem stream_error_lost_at_stale_index :
  let first :=
    Chat.Make "first" [Msg User "one" None; Msg Assistant "1" (Some true)]
              "t0" "m" in
  let second :=
    Chat.Make "second" [Msg User "two" None; Msg Assistant "2" (Some true)]
              "t1" "m" in
  let w0 := World (save_history ∅ "u" [first; second])
                  (Session "u" [first; second] [] None None false "p" None) in
  let press (b : button) := Run.Make None "m" "p" (Some b) "" "t2" [] in
  let typed := Run.Make None "m" "p" None "more" "t2" [] in
  let failing :=
    Run.Make None "m" "p" None "" "t3" [Throw "connection refused"] in
  let again :=
    Run.Make None "m" "p" None "" "t4" [Yield (chunk_of "late")] in
  let w1 := world_of (script (press (LoadButton 1)) w0) in
  let w2 := world_of (script (press (DeleteButton 0)) w1) in
  let w3 := world_of (script typed w2) in
  let w4 := world_of (script failing w3) in
  let w5 := world_of (script again w4) in
  script (press (LoadButton 1)) w0 = Done w1
  /\ script (press (DeleteButton 0)) w1 = Done w2
  /\ script typed w2 = Done w3
  /\ script failing w3 = Failed IndexError w4
  /\ last (messages (state w4))
     = Some (Msg Assistant "**Error:** connection refused" (Some true))
  /\ chat_history (state w4) = [second]
  /\ load_history (files w4) "u" = Returns (history_value [second])
  /\ is_Some (to_stream (state w4))
  /\ script again w4 = Failed IndexError w5
  /\ last (messages (state w5)) = Some (Msg Assistant "late" (Some true)).
Proof. vm_compute. repeat split. eexists. reflexivity. Qed.




(** * Further properties of the script *)

(** ** More about strings *)

Section MoreStrings.

Lemma length_take (n : nat) (s : string) :
  String.length (Py.take n s) = Nat.min n (String.length s).
Proof.
  revert s. induction n as [|n IH]; intros [|c s]; cbn; auto.
Qed.

Lemma take_append (n : nat) (a b : string) :
  n <= String.length a -> Py.take n (a +:+ b) = Py.take n a.
Proof.
  revert a. induction n as [|n IH]; intros [|c a] Hn; cbn in *;
    try reflexivity; try lia.
  f_equal. apply IH. lia.
Qed.

Lemma take_take (n : nat) (s : string) : Py.take n (Py.take n s) = Py.take n s.
Proof.
  revert s. induction n as [|n IH]; intros [|c s]; cbn; try reflexivity.
  now rewrite IH.
Qed.

Lemma take_all (n : nat) (s : string) :
  String.length s <= n -> Py.take n s = s.
Proof.
  revert s. induction n as [|n IH]; intros [|c s] Hn; cbn in *;
    try reflexivity; try lia.
  f_equal. apply IH. lia.
Qed.

Lemma append_cancel_r (a b t : string) : a +:+ t = b +:+ t -> a = b.
Proof.
  revert b. induction a as [|c a IH]; intros [|d b] H; cbn in H.
  - reflexivity.
  - apply (f_equal String.length) in H. cbn in H. rewrite length_append in H. lia.
  - apply (f_equal String.length) in H. cbn in H. rewrite length_append in H. lia.
  - injection H as -> H. f_equal. now apply IH.
Qed.

Lemma join_app (sep : string) (a b : list string) :
  a <> [] -> b <> [] ->
  Py.join sep (a ++ b) = Py.join sep a +:+ sep +:+ Py.join sep b.
Proof.
  intros Ha Hb. induction a as [|x a IH]; [congruence |].
  destruct a as [|x' a].
  - destruct b as [|y b]; [congruence | reflexivity].
  - cbn [app] in *. rewrite !join_cons, IH by discriminate.
    now rewrite !append_assoc.
Qed.

(** Joining a list one of whose pieces is itself a joined list. *)
Lemma join_nested (xs ms ys : list string) :
  ms <> [] ->
  Py.join Py.nl (xs ++ [Py.join Py.nl ms] ++ ys)
  = Py.join Py.nl (xs ++ ms ++ ys).
Proof.
  intros Hms. destruct xs as [|x xs], ys as [|y ys]; cbn [app].
  - now rewrite app_nil_r.
  - change (Py.join Py.nl ms :: y :: ys) with ([Py.join Py.nl ms] ++ y :: ys).
    now rewrite !join_app by (assumption || discriminate).
  - rewrite !app_nil_r.
    change (x :: xs ++ [Py.join Py.nl ms])
      with ((x :: xs) ++ [Py.join Py.nl ms]).
    change (x :: xs ++ ms) with ((x :: xs) ++ ms).
    now rewrite !join_app by (assumption || discriminate).
  - change (x :: xs ++ Py.join Py.nl ms :: y :: ys)
      with ((x :: xs) ++ [Py.join Py.nl ms] ++ y :: ys).
    change (x :: xs ++ ms ++ y :: ys) with ((x :: xs) ++ ms ++ y :: ys).
    rewrite (join_app _ (x :: xs)) by discriminate.
    rewrite (join_app _ (x :: xs) (ms ++ y :: ys))
      by (try discriminate; now destruct ms).
    now rewrite !join_app by (assumption || discriminate).
Qed.

End MoreStrings.

(** ** More about the formatter *)

(** X1.  A text none of whose lines starts with the fence marker comes
    out of the formatter exactly as it went in. *)
Theorem plain_text_unchanged (text : string) :
  Forall (fun l => Py.startswith fence l = false) (Py.split Py.newline text) ->
  render_markdown_with_code text = text.
Proof. apply render_plain. Qed.

Lemma plain_text_unchanged_witness :
  render_markdown_with_code (text_of ["Hello"; EmptyString; " ``` is a marker"])
  = text_of ["Hello"; EmptyString; " ``` is a marker"].
Proof.
  apply plain_text_unchanged. repeat constructor.
Defined.

Lemma is_tag_facts (language : string) :
  is_tag language = true ->
  Py.truthy language = true /\ Py.strip language = language
  /\ Py.contains Py.space language = false
  /\ Py.contains Py.newline language = false.
Proof.
  unfold is_tag. intros H.
  apply andb_true_iff in H as [H Hnl]. apply andb_true_iff in H as [H Hsp].
  apply andb_true_iff in H as [Ht Hs].
  apply String.eqb_eq in Hs. apply negb_true_iff in Hnl, Hsp. auto.
Qed.

Lemma body_lines_plain (lines : list string) :
  Forall body_line lines ->
  Forall (fun l => Py.startswith fence l = false) lines
  /\ Forall (fun l => Py.contains Py.newline l = false) lines.
Proof.
  intros H. split; (eapply Forall_impl; [exact H |]); now intros ? [? ?].
Qed.

(** X2.  A text made of plain lines around one fence that is opened by a
    marker with a language tag, holds at least one line and is closed by
    a bare marker comes out exactly as it went in. *)
Theorem tagged_fence_unchanged
    (pre body post : list string) (language : string) :
  is_tag language = true ->
  body <> [] ->
  Forall body_line pre -> Forall body_line body -> Forall body_line post ->
  let text :=
    text_of (pre ++ [fence +:+ language] ++ body ++ [fence] ++ post) in
  render_markdown_with_code text = text.
Proof.
  intros Htag Hbody Hpre Hb Hpost text.
  destruct (is_tag_facts _ Htag) as (Ht & Hs & Hsp & Hnl).
  destruct (body_lines_plain _ Hpre) as [Hpre1 Hpre2].
  destruct (body_lines_plain _ Hb) as [_ Hb2].
  destruct (body_lines_plain _ Hpost) as [Hpost1 Hpost2].
  unfold render_markdown_with_code, text, text_of.
  rewrite split_join.
  - unfold scan0. rewrite !scan_lines_app, scan_plain by assumption.
    cbn [app]. change (scan_lines (Scan false [] pre) [fence +:+ language])
      with (scan_line (Scan false [] pre) (fence +:+ language)).
    rewrite scan_open by assumption. rewrite Ht.
    rewrite scan_body by assumption.
    change (scan_lines (Scan true ([language] ++ body) pre) [fence])
      with (scan_line (Scan true ([language] ++ body) pre) fence).
    rewrite scan_close.
    assert (Hclose : close_fence ([language] ++ body)
                     = fence_block language (Py.join Py.nl body)).
    { unfold close_fence. cbn [app tail]. now rewrite Ht, Hs, Ht, Hsp. }
    rewrite Hclose.
    assert (Hrest : scan_lines
                      (Scan false []
                            (pre ++ [fence_block language (Py.join Py.nl body)]))
                      post
                    = Scan false []
                        ((pre ++ [fence_block language (Py.join Py.nl body)])
                         ++ post)).
    { apply scan_plain. assumption. }
    rewrite Hrest. cbn [output].
    replace (fence_block language (Py.join Py.nl body))
      with (Py.join Py.nl ([fence +:+ language] ++ body ++ [fence])).
    + rewrite <- app_assoc.
      rewrite (join_nested pre ([fence +:+ language] ++ body ++ [fence]) post)
        by discriminate.
      now rewrite <- !app_assoc.
    + rewrite <- (join_nested [fence +:+ language] body [fence]) by assumption.
      unfold fence_block. cbn [app]. rewrite 2!join_cons.
      change (Py.join Py.nl [fence]) with fence. now rewrite !append_assoc.
  - now destruct pre.
  - repeat (apply Forall_app; split); try assumption.
    + constructor; [| constructor]. rewrite contains_append, Hnl. reflexivity.
    + repeat constructor.
Qed.

Lemma tagged_fence_unchanged_witness :
  render_markdown_with_code
    (text_of ["Run this:"; "```py"; "x = 1"; "print(x)"; "```"; "Done."])
  = text_of ["Run this:"; "```py"; "x = 1"; "print(x)"; "```"; "Done."].
Proof.
  apply (tagged_fence_unchanged ["Run this:"] ["x = 1"; "print(x)"] ["Done."] "py");
    try reflexivity; try discriminate; repeat constructor.
Defined.

(** X3.  Whatever follows the marker on the line that closes a fence is
    lost: the result is the same as for a bare closing marker. *)
Theorem closing_suffix_ignored (pre post : list string) (suffix : string) :
  in_code_block (scan_lines scan0 pre) = true ->
  Forall clean_line pre -> Forall clean_line post -> clean_line suffix ->
  render_markdown_with_code (text_of (pre ++ [fence +:+ suffix] ++ post))
  = render_markdown_with_code (text_of (pre ++ [fence] ++ post)).
Proof.
  intros Hin Hpre Hpost Hsuffix. unfold render_markdown_with_code, text_of.
  rewrite !split_join.
  - rewrite !scan_lines_app. f_equal. f_equal. f_equal.
    cbn [scan_lines fold_left]. unfold scan_line.
    rewrite startswith_append, Hin. reflexivity.
  - now destruct pre.
  - repeat (apply Forall_app; split); try assumption. repeat constructor.
  - now destruct pre.
  - repeat (apply Forall_app; split); try assumption.
    constructor; [| constructor]. unfold clean_line in Hsuffix.
    rewrite contains_append, Hsuffix. reflexivity.
Qed.

Lemma closing_suffix_ignored_witness :
  render_markdown_with_code (text_of ["```py"; "x = 1"; "``` and then"; "end"])
  = render_markdown_with_code (text_of ["```py"; "x = 1"; "```"; "end"]).
Proof.
  apply (closing_suffix_ignored ["```py"; "x = 1"] ["end"] " and then");
    try reflexivity; repeat constructor.
Defined.

(** X4.  The name given to a new conversation is never longer than 33
    characters and agrees with the first user message on its first 30
    characters. *)
Theorem title_at_most_33 (first_user : string) :
  String.length (title_of first_user) <= 33
  /\ Py.take 30 (title_of first_user) = Py.take 30 first_user.
Proof.
  unfold title_of. destruct (30 <? String.length first_user) eqn:E.
  - apply Nat.ltb_lt in E. split.
    + rewrite length_append, length_take.
      change (String.length "...") with 3. lia.
    + rewrite take_append by (rewrite length_take; lia). apply take_take.
  - apply Nat.ltb_ge in E. split; [lia | reflexivity].
Qed.

(** ** The model catalogue *)

Section Catalogue.





Lemma linebreak_return (c : ascii) :
  Py.is_linebreak c = false -> Ascii.eqb c "013" = false.
Proof.
  intros H. destruct (Ascii.eqb_spec c "013") as [-> |]; [discriminate | reflexivity].
Qed.

(** The lines of a text that begins with a line of its own. *)
Lemma splitlines_header (header body : string) :
  no_linebreak header = true ->
  Py.splitlines (header +:+ String Py.newline body)
  = header :: Py.splitlines body.
Proof.
  induction header as [|c header IH]; intros Hh; [reflexivity |].
  cbn [no_linebreak] in Hh. apply andb_true_iff in Hh as [Hc Hh].
  apply negb_true_iff in Hc.
  cbn [String.append Py.splitlines].
  rewrite (linebreak_return _ Hc), Hc, (IH Hh). reflexivity.
Qed.

Lemma splitlines_single (header : string) :
  no_linebreak header = true ->
  tail (Py.splitlines header) = [].
Proof.
  assert (H : no_linebreak header = true ->
              Py.splitlines header
              = match header with EmptyString => [] | _ => [header] end).
  { induction header as [|c header IH]; intros Hh; [reflexivity |].
    cbn [no_linebreak] in Hh. apply andb_true_iff in Hh as [Hc Hh].
    apply negb_true_iff in Hc. cbn [Py.splitlines].
    rewrite (linebreak_return _ Hc), Hc, (IH Hh). now destruct header. }
  intros Hh. rewrite (H Hh). now destruct header.
Qed.

End Catalogue.



(** X6.  After a successful run the first line of the output never
    contributes a name, whatever it holds: the names are those of the
    lines after it, and output of a single line (or none) gives the empty
    list, not the fallback. *)
Theorem catalogue_skips_header (header : string) :
  no_linebreak header = true ->
  (forall body : string,
      get_ollama_models (Exited 0 (header +:+ Py.nl +:+ body))
      = first_tokens (Py.splitlines body))
  /\ get_ollama_models (Exited 0 header) = Returns [].
Proof.
  intros Hh. split.
  - intros body. cbn [get_ollama_models Z.eqb].
    change (header +:+ Py.nl +:+ body)
      with (header +:+ String Py.newline body).
    now rewrite splitlines_header.
  - cbn [get_ollama_models Z.eqb]. now rewrite splitlines_single.
Qed.

Lemma catalogue_skips_header_witness :
  get_ollama_models
    (Exited 0 (text_of ["llama3 is not a header"; "mistral:7b  61e88e"; ""]))
  = Returns ["mistral:7b"].
Proof.
  exact (proj1 (catalogue_skips_header "llama3 is not a header" eq_refl)
               (text_of ["mistral:7b  61e88e"; ""])).
Defined.

(** ** More about the history store *)

Section MoreStore.

Lemma history_file_inj (a b : string) :
  get_user_history_file a = get_user_history_file b -> a = b.
Proof.
  unfold get_user_history_file, HISTORY_DIR. intros H.
  cbn [String.append] in H. repeat injection H as H.
  now apply append_cancel_r in H.
Qed.

End MoreStore.

(** X7.  Different users have different files: saving the history of one
    user leaves what every other user loads unchanged. *)
Theorem save_leaves_other_users
    (stored : gmap string file) (user other : string) (records : list Chat.t) :
  user <> other ->
  get_user_history_file user <> get_user_history_file other
  /\ load_history (save_history stored user records) other
     = load_history stored other.
Proof.
  intros Hne.
  assert (Hpath : get_user_history_file user <> get_user_history_file other).
  { intros H. now apply history_file_inj in H. }
  split; [exact Hpath |].
  unfold load_history, save_history. now rewrite lookup_insert_ne.
Qed.

Lemma save_leaves_other_users_witness :
  load_history
    (save_history {[get_user_history_file "bob" := Text "[]"]} "alice"
                  [Chat.Make "hi" [] "t" "m"]) "bob"
  = Returns (Json.VList []).
Proof.
  rewrite (proj2 (save_leaves_other_users
                    {[get_user_history_file "bob" := Text "[]"]}
                    "alice" "bob" [Chat.Make "hi" [] "t" "m"]
                    ltac:(discriminate))).
  reflexivity.
Defined.

(** X8.  Loading does not look at the shape of what the file holds.  A
    file with the text of a value made of null, booleans, strings, lists
    and objects, nested no deeper than a history file is, loads as that
    value, an object or a string as much as a list of records. *)
Theorem load_does_not_check_shape
    (stored : gmap string file) (user : string) (v : Json.value) :
  Json.distinct_keys v ->
  nesting v <= HISTORY_NESTING ->
  stored !! get_user_history_file user = Some (Text (Json.dumps v)) ->
  load_history stored user = Returns v.
Proof.
  intros Hkeys _ Hfile. unfold load_history. rewrite Hfile. cbn [read_json].
  now rewrite loads_dumps.
Qed.

Lemma load_does_not_check_shape_witness :
  load_history
    {[get_user_history_file "u"
      := Text (Json.dumps (Json.VDict [("name", Json.VStr "not a list")]))]}
    "u"
  = Returns (Json.VDict [("name", Json.VStr "not a list")]).
Proof.
  apply load_does_not_check_shape.
  - split; [apply (bool_decide_unpack _); reflexivity | repeat split].
  - cbn. unfold HISTORY_NESTING. lia.
  - reflexivity.
Defined.

(** ** The side bar *)

(** X14.  The side bar shows every record once, newest first, each under
    the index it has in the history. *)
Theorem sidebar_lists_records (chat_history : list Chat.t) :
  sidebar_entries chat_history
  = reverse (imap (fun orig_i chat_obj => (orig_i, chat_obj)) chat_history).
Proof.
  apply list_eq. intros rev_i. unfold sidebar_entries.
  rewrite list_lookup_imap.
  destruct (decide (rev_i < length chat_history)) as [Hlt | Hge].
  - rewrite !reverse_lookup by (rewrite ?length_imap; exact Hlt).
    rewrite length_imap, list_lookup_imap.
    replace (length chat_history - 1 - rev_i)
      with (length chat_history - S rev_i) by lia.
    reflexivity.
  - rewrite !(proj2 (lookup_ge_None _ _))
      by (rewrite length_reverse, ?length_imap; lia).
    reflexivity.
Qed.

(** X15.  The Load button shown with a record loads that very record:
    the index it stores designates the record whose messages it copies,
    so the next turn is written back to the record that was shown. *)
Theorem load_button_loads_shown_record
    (st : session) (orig_i : nat) (chat_obj : Chat.t) :
  (orig_i, chat_obj) ∈ sidebar_entries (chat_history st) ->
  chat_history st !! orig_i = Some chat_obj
  /\ load_chat orig_i st = Some (load_entry (orig_i, chat_obj) st)
  /\ chat_history (load_entry (orig_i, chat_obj) st)
       !! orig_i = Some chat_obj
  /\ messages (load_entry (orig_i, chat_obj) st) = Chat.messages chat_obj.
Proof.
  unfold sidebar_entries. intros Hshown.
  apply elem_of_lookup_imap in Hshown as (rev_i & c & Hpair & Hrev).
  injection Hpair as -> ->.
  assert (Hlt : rev_i < length (chat_history st)).
  { apply lookup_lt_Some in Hrev. now rewrite length_reverse in Hrev. }
  rewrite reverse_lookup in Hrev by exact Hlt.
  replace (length (chat_history st) - 1 - rev_i)
    with (length (chat_history st) - S rev_i) by lia.
  unfold load_chat. rewrite Hrev. repeat split. exact Hrev.
Qed.

Lemma load_button_loads_shown_record_witness :
  let a := Chat.Make "a" [Msg User "one" None] "t0" "m" in
  let b := Chat.Make "b" [Msg User "two" None] "t1" "m" in
  let st := Session "u" [a; b] [] None None false "p" None in
  sidebar_entries (chat_history st) = [(1, b); (0, a)]
  /\ load_chat 1 st = Some (load_entry (1, b) st).
Proof.
  intros a b st. split; [reflexivity |].
  apply (load_button_loads_shown_record st 1 b).
  exact (list_elem_of_here (1, b) [(0, a)]).
Defined.

(** ** Runs of the whole script *)

Section Script.

(** The upload and clear-file blocks touch the file text only, the
    prompt block the system prompt only. *)
Lemma upload_clear_keeps (clicked : option button)
    (uploaded_file : option UploadedFile) (st : session) :
  let st' := clear_file_block clicked (upload_block uploaded_file st) in
  user_id st' = user_id st
  /\ chat_history st' = chat_history st
  /\ messages st' = messages st
  /\ current_idx st' = current_idx st
  /\ to_stream st' = to_stream st
  /\ stop_requested st' = stop_requested st.
Proof.
  unfold clear_file_block, upload_block, set_file_text.
  repeat case_match; cbn; repeat split.
Qed.

Lemma prompt_keeps (system_prompt' : string) (st : session) :
  let st' := prompt_block system_prompt' st in
  user_id st' = user_id st
  /\ chat_history st' = chat_history st
  /\ messages st' = messages st
  /\ current_idx st' = current_idx st
  /\ to_stream st' = to_stream st
  /\ stop_requested st' = stop_requested st
  /\ file_text st' = file_text st.
Proof. unfold prompt_block. case_match; cbn; repeat split. Qed.

Lemma sidebar_top_keeps (i : Run.inputs) (st : session) :
  user_id (sidebar_top i st) = user_id st
  /\ chat_history (sidebar_top i st) = chat_history st
  /\ messages (sidebar_top i st) = messages st
  /\ current_idx (sidebar_top i st) = current_idx st
  /\ to_stream (sidebar_top i st) = to_stream st
  /\ stop_requested (sidebar_top i st) = stop_requested st.
Proof.
  unfold sidebar_top.
  destruct (prompt_keeps (Run.system_prompt i)
              (clear_file_block (Run.clicked i)
                 (upload_block (Run.uploaded_file i) st)))
    as (-> & -> & -> & -> & -> & -> & _).
  apply upload_clear_keeps.
Qed.

(** The text an uploaded file contributes is held after the top of the
    side bar unless the clear button was pressed. *)
Lemma sidebar_top_upload (i : Run.inputs) (st : session)
    (f : UploadedFile) (extracted_text : string) :
  Run.uploaded_file i = Some f ->
  extract_text_from_file f = Some extracted_text ->
  Py.truthy extracted_text = true ->
  Run.clicked i <> Some ClearFileButton ->
  file_text (sidebar_top i st) = Some extracted_text.
Proof.
  intros Hfile Htext Htruthy Hclicked. unfold sidebar_top.
  destruct (prompt_keeps (Run.system_prompt i)
              (clear_file_block (Run.clicked i)
                 (upload_block (Run.uploaded_file i) st)))
    as (_ & _ & _ & _ & _ & _ & ->).
  unfold upload_block. rewrite Hfile, Htext, Htruthy.
  unfold clear_file_block. cbn [set_file_text file_text].
  destruct (Run.clicked i) as [[| | | | j | j |]|]; try reflexivity.
  now destruct Hclicked.
Qed.

(** A run in which no button of the side bar ends the run. *)
Lemma script_main (i : Run.inputs) (w : world) :
  Run.clicked i = None \/ Run.clicked i = Some StopButton ->
  script i w
  = match to_stream (sidebar_top i (state w)) with
    | None =>
        Done (World (files w)
                    (submit (Run.selected_model i) (Run.user_input i)
                            (sidebar_top i (state w))))
    | Some _ =>
        match Run.clicked i with
        | Some StopButton =>
            Done (World (files w) (stop_click (sidebar_top i (state w))))
        | _ =>
            stream (Run.selected_model i) (Run.now i) (Run.events i)
                   (World (files w) (sidebar_top i (state w)))
        end
    end.
Proof.
  unfold script, sidebar_top, history_block.
  intros [-> | ->]; cbn [state];
    match goal with
    | |- context [match chat_history ?st with _ => _ end] =>
        now destruct (chat_history st)
    end.
Qed.

(** A run in which Clear All History is pressed. *)
Lemma script_clear_all (i : Run.inputs) (w : world) :
  Run.clicked i = Some ClearAllButton ->
  chat_history (state w) <> [] ->
  script i w
  = Done (clear_all_history (World (files w) (sidebar_top i (state w)))).
Proof.
  intros Hclicked Hrecords.
  destruct (sidebar_top_keeps i (state w)) as (_ & Hhistory & _).
  revert Hhistory. unfold script, sidebar_top, history_block.
  rewrite Hclicked. cbn [state]. intros Hhistory. rewrite Hhistory.
  now destruct (chat_history (state w)).
Qed.

Lemma store_step_refl (w : world) : store_step w w.
Proof. split; [reflexivity | now left]. Qed.

Lemma store_step_from (w w' : world) (st : session) :
  user_id st = user_id (state w) ->
  chat_history st = chat_history (state w) ->
  store_step (World (files w) st) w' -> store_step w w'.
Proof.
  unfold store_step. cbn [state files]. intros -> ->. auto.
Qed.

Lemma submit_store (selected_model user_input : string) (fs : gmap string file)
    (st : session) :
  store_step (World fs st) (World fs (submit selected_model user_input st)).
Proof.
  unfold store_step, submit. cbn [state files].
  repeat case_match; cbn; auto.
Qed.

Lemma finalize_store (selected_model now full : string) (w : world) :
  store_step w (world_of (finalize selected_model now full w))
  /\ file_text (state (world_of (finalize selected_model now full w)))
     = file_text (state w).
Proof.
  unfold store_step, finalize.
  destruct (current_idx (state w)) as [i|];
    [destruct (chat_history (state w) !! i) |]; cbn; auto.
Qed.

Lemma stream_store (selected_model now : string) (events : list event)
    (w : world) :
  store_step w (world_of (stream selected_model now events w))
  /\ file_text (state (world_of (stream selected_model now events w)))
     = file_text (state w).
Proof.
  unfold stream. destruct (to_stream (state w)).
  - apply finalize_store.
  - split; [apply store_step_refl | reflexivity].
Qed.

Lemma delete_store (orig_i : nat) (w w' : world) :
  delete_chat orig_i w = Some w' -> store_step w w'.
Proof.
  unfold delete_chat, store_step.
  destruct (chat_history (state w) !! orig_i); [| discriminate].
  intros [= <-]. cbn [files state].
  destruct (decide (current_idx (state w) = Some orig_i)); cbn; auto.
Qed.

Lemma history_block_store (clicked : option button) (w w' : world) :
  history_block clicked w = Some w' -> store_step w w'.
Proof.
  unfold history_block.
  destruct (chat_history (state w)) eqn:Hrecords; [discriminate |].
  destruct clicked as [[| | | | j | j |]|]; try discriminate.
  - intros [= <-]. unfold store_step, clear_all_history. cbn. auto.
  - unfold load_chat. destruct (chat_history (state w) !! j); [| discriminate].
    intros [= <-]. unfold store_step. cbn. auto.
  - apply delete_store.
Qed.

(** Every run of the script is such a step. *)
Lemma script_store (i : Run.inputs) (w : world) :
  store_step w (world_of (script i w)).
Proof.
  unfold script.
  pose proof (upload_clear_keeps (Run.clicked i) (Run.uploaded_file i)
                (state w)) as H2. cbv zeta in H2.
  set (st2 := clear_file_block _ _) in *.
  pose proof (prompt_keeps (Run.system_prompt i) st2) as H3. cbv zeta in H3.
  set (st3 := prompt_block _ st2) in *.
  clearbody st3. clearbody st2.
  destruct H2 as (Hu2 & Hh2 & _). destruct H3 as (Hu3 & Hh3 & _).
  rewrite Hu2 in Hu3. rewrite Hh2 in Hh3.
  set (st4 := match Run.clicked i with
              | Some NewChatButton => new_chat st3
              | _ => st3
              end).
  assert (Hst4 : user_id st4 = user_id (state w)
                 /\ chat_history st4 = chat_history (state w)).
  { subst st4. now destruct (Run.clicked i) as [[| | | | j | j |]|]. }
  destruct Hst4 as [Hu4 Hh4]. clearbody st4.
  assert (Hrest :
    store_step w
      (world_of
         match history_block (Run.clicked i) (World (files w) st4) with
         | Some w' => Done w'
         | None =>
             match to_stream st4 with
             | None =>
                 Done (World (files w)
                         (submit (Run.selected_model i) (Run.user_input i) st4))
             | Some _ =>
                 match Run.clicked i with
                 | Some StopButton => Done (World (files w) (stop_click st4))
                 | _ =>
                     stream (Run.selected_model i) (Run.now i) (Run.events i)
                            (World (files w) st4)
                 end
             end
         end)).
  { apply (store_step_from w _ st4 Hu4 Hh4).
    destruct (history_block (Run.clicked i) (World (files w) st4)) as [w'|]
      eqn:Hblock.
    - now apply history_block_store with (Run.clicked i).
    - destruct (to_stream st4).
      + destruct (Run.clicked i) as [[| | | | j | j |]|];
          try apply stream_store.
        split; [reflexivity | now left].
      + apply submit_store. }
  destruct (Run.clicked i) as [[| | | | j | j |]|]; try exact Hrest.
  apply (store_step_from w _ st2 Hu2 Hh2), store_step_refl.
Qed.

End Script.

(** X16.  Whatever a run of the script does, the user's file and the
    history of the session stay in step: if loading the file gave the
    history before the run, it does so after it, also when the run stops
    with an exception. *)
Theorem script_keeps_file_in_step (i : Run.inputs) (w : world) :
  synced w -> synced (world_of (script i w)).
Proof.
  unfold synced. intros Hsynced.
  destruct (script_store i w) as [Huser [[Hfiles Hhistory] | Hsaved]].
  - now rewrite Huser, Hfiles, Hhistory.
  - rewrite Huser, Hsaved. apply load_saved.
Qed.

Lemma script_keeps_file_in_step_witness :
  let a := Chat.Make "a" [Msg User "one" None] "t0" "m" in
  let w := World (save_history ∅ "u" [a])
                 (Session "u" [a] [] None None false "p" None) in
  synced (world_of (script (Run.Make None "m" "p" (Some (DeleteButton 0))
                                     "" "t1" []) w)).
Proof.
  intros a w. apply (script_keeps_file_in_step _ w).
  unfold synced. apply load_saved.
Defined.

(** X17.  A run of the script writes no file but the history file of the
    user of the session: every other path holds after the run what it held
    before. *)
Theorem script_writes_own_file_only
    (i : Run.inputs) (w : world) (path : string) :
  path <> get_user_history_file (user_id (state w)) ->
  files (world_of (script i w)) !! path = files w !! path.
Proof.
  intros Hpath.
  destruct (script_store i w) as [_ [[-> _] | ->]]; [reflexivity |].
  unfold save_history. now apply lookup_insert_ne.
Qed.

Lemma script_writes_own_file_only_witness :
  let a := Chat.Make "a" [Msg User "one" None] "t0" "m" in
  let stored := save_history ∅ "v" [a] in
  let w := World stored (Session "u" [a] [] None None false "p" None) in
  files (world_of (script (Run.Make None "m" "p" (Some ClearAllButton)
                                    "" "t1" []) w))
    !! get_user_history_file "v"
  = stored !! get_user_history_file "v".
Proof.
  intros a stored w.
  apply (script_writes_own_file_only _ w). discriminate.
Defined.

(** X18.  Stop Generating pressed while a request is queued only raises
    the flag; the run after it takes one chunk, drops it and stores an
    empty reply: the conversation gains an assistant message with no
    text, its record is written, and the queue and the flag are reset. *)
Theorem stop_click_gives_empty_reply
    (w : world) (i1 i2 : Run.inputs) (request : Request.t) :
  to_stream (state w) = Some request ->
  index_in_range (state w) ->
  Run.clicked i1 = Some StopButton ->
  Run.clicked i2 = None ->
  throw_free (Run.events i2) = true ->
  exists w1 w2 j record,
    script i1 w = Done w1
    /\ messages (state w1) = messages (state w)
    /\ to_stream (state w1) = Some request
    /\ stop_requested (state w1) = true
    /\ script i2 w1 = Done w2
    /\ messages (state w2)
       = messages (state w) ++ [Msg Assistant EmptyString (Some true)]
    /\ current_idx (state w2) = Some j
    /\ chat_history (state w2) !! j = Some record
    /\ Chat.messages record = messages (state w2)
    /\ to_stream (state w2) = None
    /\ stop_requested (state w2) = false.
Proof.
  intros Hrequest Hrange Hclick1 Hclick2 Hevents.
  destruct (sidebar_top_keeps i1 (state w)) as (_ & Hh1 & Hm1 & Hc1 & Hq1 & _).
  rewrite script_main by auto. rewrite Hq1, Hrequest, Hclick1.
  rewrite Hrequest in Hq1.
  generalize dependent (sidebar_top i1 (state w)).
  intros st1 Hh1 Hm1 Hc1 Hq1.
  exists (World (files w) (stop_click st1)).
  destruct (sidebar_top_keeps i2 (stop_click st1))
    as (_ & Hh2 & Hm2 & Hc2 & Hq2 & Hs2).
  cbn [stop_click chat_history messages current_idx to_stream stop_requested]
    in Hh2, Hm2, Hc2, Hq2, Hs2.
  rewrite (script_main i2) by auto. cbn [state files].
  rewrite Hh1 in Hh2. rewrite Hm1 in Hm2. rewrite Hc1 in Hc2.
  rewrite Hq1 in Hq2.
  generalize dependent (sidebar_top i2 (stop_click st1)).
  intros st2 Hh2 Hm2 Hc2 Hq2 Hs2.
  rewrite Hq2, Hclick2.
  rewrite (stream_queued _ _ _ _ request) by exact Hq2.
  cbn [state]. rewrite Hs2. rewrite consume_stopped by exact Hevents.
  assert (Hrange' : index_in_range (state (World (files w) st2))).
  { unfold index_in_range in *. cbn [state]. now rewrite Hc2, Hh2. }
  destruct (finalize_completes (Run.selected_model i2) (Run.now i2)
              EmptyString _ Hrange')
    as (w2 & j & record & Hdone & Hmessages & Hidx & Hrecord & Hcopy & _ & _
        & _ & Hqueue & Hflag).
  cbn [state] in Hmessages. rewrite Hm2 in Hmessages.
  exists w2, j, record.
  cbn [stop_click messages to_stream stop_requested].
  repeat split; assumption.
Qed.

Lemma stop_click_gives_empty_reply_witness :
  let request := Request.Make "m" [Msg System "p" None; Msg User "hi" None] in
  let w := World ∅ (Session "u" [] [Msg User "hi" None] None (Some request)
                            false "p" None) in
  exists w1 w2,
    script (Run.Make None "m" "p" (Some StopButton) "" "t" []) w = Done w1
    /\ script (Run.Make None "m" "p" None "" "t" [Yield (chunk_of "Hello")]) w1
       = Done w2
    /\ messages (state w2)
       = [Msg User "hi" None; Msg Assistant EmptyString (Some true)].
Proof.
  intros request w.
  destruct (stop_click_gives_empty_reply w
              (Run.Make None "m" "p" (Some StopButton) "" "t" [])
              (Run.Make None "m" "p" None "" "t" [Yield (chunk_of "Hello")])
              request eq_refl I eq_refl eq_refl eq_refl)
    as (w1 & w2 & j & record & Hrun1 & _ & _ & _ & Hrun2 & Hmessages & _).
  exists w1, w2. repeat split; assumption.
Defined.

(** X19.  Sending a message uses up the file context, but only until the
    next run: while the file stays in the uploader the run that streams
    the reply extracts it again, so the context is pending once more. *)
Theorem uploaded_file_attached_again
    (w : world) (i1 i2 : Run.inputs) (f : UploadedFile)
    (extracted_text : string) :
  to_stream (state w) = None ->
  Run.uploaded_file i1 = Some f ->
  Run.uploaded_file i2 = Some f ->
  extract_text_from_file f = Some extracted_text ->
  Py.truthy extracted_text = true ->
  Run.clicked i1 = None ->
  Run.clicked i2 = None ->
  Py.truthy (Run.user_input i1) = true ->
  exists w1,
    script i1 w = Done w1
    /\ messages (state w1)
       = messages (state w)
         ++ [Msg User
                 (with_file_context (Some extracted_text) (Run.user_input i1))
                 None]
    /\ file_text (state w1) = None
    /\ pending_file_context (state (world_of (script i2 w1)))
       = Some extracted_text.
Proof.
  intros Hidle Hfile1 Hfile2 Htext Htruthy Hclick1 Hclick2 Hinput.
  destruct (sidebar_top_keeps i1 (state w)) as (_ & _ & Hm1 & _ & Hq1 & _).
  assert (Hheld1 : file_text (sidebar_top i1 (state w)) = Some extracted_text).
  { apply (sidebar_top_upload i1 _ f); try assumption. now rewrite Hclick1. }
  rewrite script_main by auto. rewrite Hq1, Hidle. rewrite Hidle in Hq1.
  generalize dependent (sidebar_top i1 (state w)). intros st1 Hm1 Hq1 Hheld1.
  assert (Hsubmit : exists request,
            submit (Run.selected_model i1) (Run.user_input i1) st1
            = Session (user_id st1) (chat_history st1)
                (messages st1
                 ++ [Msg User
                         (with_file_context (Some extracted_text)
                                            (Run.user_input i1)) None])
                (current_idx st1) (Some request) false (system_prompt st1)
                None).
  { unfold submit. rewrite Hq1, Hinput, Hheld1, Htruthy.
    cbn [fst snd with_file_context]. eexists. reflexivity. }
  destruct Hsubmit as [request ->].
  eexists. split; [reflexivity |]. cbn [state messages file_text].
  split; [now rewrite Hm1 |]. split; [reflexivity |].
  rewrite script_main by auto. cbn [state files]. rewrite Hclick2.
  match goal with
  | |- context [sidebar_top i2 ?st] =>
      assert (Hheld2 : file_text (sidebar_top i2 st) = Some extracted_text)
        by (apply (sidebar_top_upload i2 _ f); try assumption;
            now rewrite Hclick2);
      destruct (sidebar_top_keeps i2 st) as (_ & _ & _ & _ & Hq2 & _);
      cbn [to_stream] in Hq2
  end.
  rewrite Hq2. unfold pending_file_context.
  rewrite (proj2 (stream_store _ _ _ _)). cbn [state].
  now rewrite Hheld2, Htruthy.
Qed.

Lemma uploaded_file_attached_again_witness :
  let f := Upload "text/plain" (Some "notes") NotInstalled NotInstalled in
  let w := World ∅ (Session "u" [] [] None None false "p" None) in
  exists w1,
    script (Run.Make (Some f) "m" "p" None "hi" "t" []) w = Done w1
    /\ file_text (state w1) = None
    /\ pending_file_context
         (state (world_of (script (Run.Make (Some f) "m" "p" None "" "t"
                                            [Yield (chunk_of "Hello")]) w1)))
       = Some "notes".
Proof.
  intros f w.
  destruct (uploaded_file_attached_again w
              (Run.Make (Some f) "m" "p" None "hi" "t" [])
              (Run.Make (Some f) "m" "p" None "" "t" [Yield (chunk_of "Hello")])
              f "notes" eq_refl eq_refl eq_refl eq_refl eq_refl eq_refl
              eq_refl eq_refl)
    as (w1 & Hrun & _ & Hcleared & Hagain).
  exists w1. repeat split; assumption.
Defined.

(** X20.  Clear All History pressed while a request is queued empties
    the history and the conversation but leaves the request queued: the
    next run streams the reply into the empty conversation and files it
    as the only record, named Chat, holding the reply and no user
    message. *)
Theorem clear_all_while_queued
    (w : world) (i1 i2 : Run.inputs) (request : Request.t) :
  to_stream (state w) = Some request ->
  chat_history (state w) <> [] ->
  Run.clicked i1 = Some ClearAllButton ->
  Run.clicked i2 = None ->
  exists w1 w2,
    script i1 w = Done w1
    /\ chat_history (state w1) = []
    /\ to_stream (state w1) = Some request
    /\ script i2 w1 = Done w2
    /\ messages (state w2)
       = [reply_of (stop_requested (state w)) (Run.events i2)]
    /\ chat_history (state w2)
       = [Chat.Make "Chat"
                    [reply_of (stop_requested (state w)) (Run.events i2)]
                    (Run.now i2) (Run.selected_model i2)].
Proof.
  intros Hrequest Hrecords Hclick1 Hclick2.
  destruct (sidebar_top_keeps i1 (state w)) as (_ & _ & _ & _ & Hq1 & Hs1).
  rewrite (script_clear_all i1 w Hclick1 Hrecords).
  rewrite Hrequest in Hq1.
  generalize dependent (sidebar_top i1 (state w)). intros st1 Hq1 Hs1.
  exists (clear_all_history (World (files w) st1)).
  unfold clear_all_history. cbn [state files chat_history to_stream].
  rewrite Hq1, Hs1.
  rewrite (script_main i2) by auto. cbn [state files].
  match goal with
  | |- context [sidebar_top i2 ?st] =>
      destruct (sidebar_top_keeps i2 st) as (_ & Hh2 & Hm2 & Hc2 & Hq2 & Hs2);
      cbn [chat_history messages current_idx to_stream stop_requested]
        in Hh2, Hm2, Hc2, Hq2, Hs2;
      generalize dependent (sidebar_top i2 st)
  end.
  intros st2 Hh2 Hm2 Hc2 Hq2 Hs2.
  rewrite Hq2, Hclick2. unfold stream. cbn [state]. rewrite Hq2.
  unfold finalize. cbn [state]. rewrite Hc2, Hh2, Hm2, Hs2.
  eexists. split; [reflexivity |]. split; [reflexivity |].
  split; [reflexivity |]. split; [reflexivity |].
  cbn [state messages chat_history app]. split; reflexivity.
Qed.

Lemma clear_all_while_queued_witness :
  let a := Chat.Make "a" [Msg User "one" None] "t0" "m" in
  let request := Request.Make "m" [Msg System "p" None; Msg User "hi" None] in
  let w := World ∅ (Session "u" [a] [Msg User "hi" None] None (Some request)
                            false "p" None) in
  exists w1 w2,
    script (Run.Make None "m" "p" (Some ClearAllButton) "" "t" []) w = Done w1
    /\ script (Run.Make None "m" "p" None "" "t1" [Yield (chunk_of "Hello")]) w1
       = Done w2
    /\ chat_history (state w2)
       = [Chat.Make "Chat" [Msg Assistant "Hello" (Some true)] "t1" "m"].
Proof.
  intros a request w.
  destruct (clear_all_while_queued w
              (Run.Make None "m" "p" (Some ClearAllButton) "" "t" [])
              (Run.Make None "m" "p" None "" "t1" [Yield (chunk_of "Hello")])
              request eq_refl ltac:(discriminate) eq_refl eq_refl)
    as (w1 & w2 & Hrun1 & _ & _ & Hrun2 & _ & Hhistory).
  exists w1, w2. repeat split; assumption.
Defined.

(** ** Composed turns *)

Section Turns.

(** The state after a submit that is accepted. *)
Lemma submit_idle (selected_model user_input : string) (st : session) :
  to_stream st = None ->
  Py.truthy user_input = true ->
  exists kept,
    submit selected_model user_input st
    = Session (user_id st) (chat_history st)
              (messages st
               ++ [Msg User
                       (with_file_context (pending_file_context st) user_input)
                       None])
              (current_idx st)
              (Some (Request.Make selected_model
                       (Msg System (system_prompt st) None
                        :: messages st
                           ++ [Msg User
                                   (with_file_context (pending_file_context st)
                                                      user_input)
                                   None])))
              false (system_prompt st) kept
    /\ (kept = None \/ kept = Some EmptyString).
Proof.
  intros Hidle Hinput. unfold submit, pending_file_context, with_file_context.
  rewrite Hidle, Hinput.
  destruct (file_text st) as [[|c f]|]; cbn [Py.truthy fst snd];
    eexists; split; try reflexivity; auto.
Qed.

Lemma first_user_head (text : string) (rest : list Message) :
  first_user (Msg User text None :: rest) = text.
Proof. reflexivity. Qed.

(** The run in which a text is typed while nothing is queued. *)
Lemma script_typed (i : Run.inputs) (w : world) :
  Run.clicked i = None ->
  Py.truthy (Run.user_input i) = true ->
  to_stream (state w) = None ->
  exists st,
    script i w = Done (World (files w) st)
    /\ user_id st = user_id (state w)
    /\ chat_history st = chat_history (state w)
    /\ messages st
       = messages (state w)
         ++ [user_message (sidebar_top i (state w)) (Run.user_input i)]
    /\ current_idx st = current_idx (state w)
    /\ is_Some (to_stream st)
    /\ stop_requested st = false.
Proof.
  intros Hclick Hinput Hidle.
  destruct (sidebar_top_keeps i (state w)) as (Hu & Hh & Hm & Hc & Hq & _).
  rewrite script_main by auto. rewrite Hq, Hidle. rewrite Hidle in Hq.
  destruct (submit_idle (Run.selected_model i) (Run.user_input i) _ Hq Hinput)
    as (kept & -> & _).
  eexists. split; [reflexivity |].
  cbn [user_id chat_history messages current_idx to_stream stop_requested].
  rewrite Hu, Hh, Hm, Hc. unfold user_message. repeat split.
  eexists. reflexivity.
Qed.

(** The run that streams the reply of a queued request. *)
Lemma script_streamed (i : Run.inputs) (w : world) (request : Request.t) :
  Run.clicked i = None ->
  to_stream (state w) = Some request ->
  exists st,
    script i w
    = finalize (Run.selected_model i) (Run.now i)
        (fst (consume (stop_requested (state w)) EmptyString (Run.events i)))
        (World (files w) st)
    /\ user_id st = user_id (state w)
    /\ chat_history st = chat_history (state w)
    /\ messages st = messages (state w)
    /\ current_idx st = current_idx (state w)
    /\ to_stream st = Some request.
Proof.
  intros Hclick Hq.
  destruct (sidebar_top_keeps i (state w)) as (Hu & Hh & Hm & Hc & Hq' & Hs).
  rewrite script_main by auto. rewrite Hq', Hq, Hclick.
  exists (sidebar_top i (state w)). split.
  - unfold stream. cbn [state]. now rewrite Hq', Hq, Hs.
  - rewrite Hq'. auto.
Qed.

(** The run in which the Load button of a record is pressed. *)
Lemma script_load (i : Run.inputs) (w : world) (orig_i : nat)
    (chat_obj : Chat.t) :
  Run.clicked i = Some (LoadButton orig_i) ->
  chat_history (state w) !! orig_i = Some chat_obj ->
  exists st,
    script i w = Done (World (files w) st)
    /\ user_id st = user_id (state w)
    /\ chat_history st = chat_history (state w)
    /\ messages st = Chat.messages chat_obj
    /\ current_idx st = Some orig_i
    /\ to_stream st = None.
Proof.
  intros Hclick Hrecord.
  destruct (sidebar_top_keeps i (state w)) as (Hu & Hh & _).
  revert Hu Hh. unfold script, sidebar_top, history_block, load_chat.
  rewrite Hclick. cbn [state]. intros Hu Hh. rewrite Hh, Hu.
  destruct (chat_history (state w)) as [|c h] eqn:Hhistory;
    [discriminate |].
  rewrite Hrecord. eexists. split; [reflexivity |]. repeat split.
Qed.

(** The run in which the Delete button of a record that is not the
    current one is pressed. *)
Lemma script_delete_other (i : Run.inputs) (w : world) (orig_i : nat)
    (chat_obj : Chat.t) :
  Run.clicked i = Some (DeleteButton orig_i) ->
  chat_history (state w) !! orig_i = Some chat_obj ->
  current_idx (state w) <> Some orig_i ->
  exists st,
    script i w
    = Done (World (save_history (files w) (user_id (state w))
                                (delete orig_i (chat_history (state w))))
                  st)
    /\ user_id st = user_id (state w)
    /\ chat_history st = delete orig_i (chat_history (state w))
    /\ messages st = messages (state w)
    /\ current_idx st = current_idx (state w)
    /\ to_stream st = to_stream (state w).
Proof.
  intros Hclick Hrecord Hother.
  destruct (sidebar_top_keeps i (state w)) as (Hu & Hh & Hm & Hc & Hq & _).
  revert Hu Hh Hm Hc Hq. unfold script, sidebar_top, history_block, delete_chat.
  rewrite Hclick. cbn [state files]. intros Hu Hh Hm Hc Hq.
  rewrite Hh, Hu, Hc.
  destruct (chat_history (state w)) as [|c h] eqn:Hhistory;
    [discriminate |].
  rewrite Hrecord. rewrite decide_False by exact Hother.
  eexists. split; [reflexivity |].
  cbn [user_id chat_history messages current_idx to_stream].
  now rewrite Hm, Hq.
Qed.

(** The run in which New Chat is pressed. *)
Lemma script_new_chat (i : Run.inputs) (w : world) :
  Run.clicked i = Some NewChatButton ->
  Py.truthy (Run.user_input i) = false ->
  script i w = Done (World (files w) (new_chat (sidebar_top i (state w)))).
Proof.
  intros Hclick Hinput. unfold script, sidebar_top, history_block.
  rewrite Hclick. cbn [state new_chat chat_history to_stream].
  match goal with
  | |- context [match chat_history ?st with _ => _ end] =>
      destruct (chat_history st)
  end; unfold submit; cbn [to_stream]; now rewrite Hinput.
Qed.

(** Without a file in the uploader no file text appears. *)
Lemma sidebar_top_no_upload (i : Run.inputs) (st : session) :
  Run.uploaded_file i = None ->
  file_text st = None ->
  file_text (sidebar_top i st) = None.
Proof.
  intros Hfile Hnone. unfold sidebar_top.
  destruct (prompt_keeps (Run.system_prompt i)
              (clear_file_block (Run.clicked i)
                 (upload_block (Run.uploaded_file i) st)))
    as (_ & _ & _ & _ & _ & _ & ->).
  rewrite Hfile. unfold upload_block, clear_file_block. now rewrite Hnone.
Qed.

Variables typed streamed : Run.inputs.

Hypothesis typing : Run.clicked typed = None.
Hypothesis text : Py.truthy (Run.user_input typed) = true.
Hypothesis streaming : Run.clicked streamed = None.

(** A turn in a conversation that has no record yet. *)
Lemma turn_new (w : world) :
  to_stream (state w) = None ->
  current_idx (state w) = None ->
  let messages' :=
    messages (state w)
    ++ [user_message (sidebar_top typed (state w)) (Run.user_input typed);
        reply_of false (Run.events streamed)] in
  let record :=
    Chat.Make (title_of (first_user messages')) messages'
              (Run.now streamed) (Run.selected_model streamed) in
  exists w',
    turn typed streamed w = Done w'
    /\ chat_history (state w') = chat_history (state w) ++ [record]
    /\ messages (state w') = messages'
    /\ current_idx (state w') = Some (length (chat_history (state w)))
    /\ to_stream (state w') = None
    /\ user_id (state w') = user_id (state w)
    /\ files w'
       = save_history (files w) (user_id (state w)) (chat_history (state w')).
Proof.
  intros Hidle Hnew messages' record. unfold turn.
  destruct (script_typed typed w typing text Hidle)
    as (st1 & -> & Hu1 & Hh1 & Hm1 & Hc1 & [request Hq1] & Hs1).
  destruct (script_streamed streamed (World (files w) st1) request streaming
              Hq1)
    as (st2 & -> & Hu2 & Hh2 & Hm2 & Hc2 & Hq2).
  cbn [state files] in Hu2, Hh2, Hm2, Hc2 |- *.
  rewrite Hs1. unfold finalize. cbn [state files].
  rewrite Hc2, Hc1, Hnew, Hh2, Hh1, Hm2, Hm1, Hu2, Hu1.
  eexists. split; [reflexivity |].
  cbn [state chat_history messages current_idx to_stream user_id files].
  fold (reply_of false (Run.events streamed)).
  rewrite <- app_assoc. cbn [app]. fold messages'. fold record.
  repeat split. rewrite length_app. cbn [length]. f_equal. lia.
Qed.

(** A turn in a conversation that has its record. *)
Lemma turn_existing (w : world) (i : nat) (old : Chat.t) :
  to_stream (state w) = None ->
  current_idx (state w) = Some i ->
  chat_history (state w) !! i = Some old ->
  let messages' :=
    messages (state w)
    ++ [user_message (sidebar_top typed (state w)) (Run.user_input typed);
        reply_of false (Run.events streamed)] in
  exists w',
    turn typed streamed w = Done w'
    /\ chat_history (state w')
       = <[i := Chat.Make (Chat.name old) messages' (Run.now streamed)
                          (Run.selected_model streamed)]>
           (chat_history (state w))
    /\ messages (state w') = messages'
    /\ current_idx (state w') = Some i
    /\ to_stream (state w') = None
    /\ files w'
       = save_history (files w) (user_id (state w)) (chat_history (state w')).
Proof.
  intros Hidle Hidx Hold messages'. unfold turn.
  destruct (script_typed typed w typing text Hidle)
    as (st1 & -> & Hu1 & Hh1 & Hm1 & Hc1 & [request Hq1] & Hs1).
  destruct (script_streamed streamed (World (files w) st1) request streaming
              Hq1)
    as (st2 & -> & Hu2 & Hh2 & Hm2 & Hc2 & Hq2).
  cbn [state files] in Hu2, Hh2, Hm2, Hc2 |- *.
  rewrite Hs1. unfold finalize. cbn [state files].
  rewrite Hc2, Hc1, Hidx, Hh2, Hh1, Hold, Hm2, Hm1, Hu2, Hu1.
  eexists. split; [reflexivity |].
  cbn [state chat_history messages current_idx to_stream user_id files].
  fold (reply_of false (Run.events streamed)).
  rewrite <- app_assoc. cbn [app]. fold messages'.
  repeat split.
Qed.

(** A turn when the current index designates nothing. *)
Lemma turn_stale (w : world) (i : nat) :
  to_stream (state w) = None ->
  current_idx (state w) = Some i ->
  length (chat_history (state w)) <= i ->
  exists w',
    turn typed streamed w = Failed IndexError w'
    /\ files w' = files w
    /\ chat_history (state w') = chat_history (state w)
    /\ current_idx (state w') = Some i
    /\ is_Some (to_stream (state w')).
Proof.
  intros Hidle Hidx Hlen. unfold turn.
  destruct (script_typed typed w typing text Hidle)
    as (st1 & -> & Hu1 & Hh1 & Hm1 & Hc1 & [request Hq1] & Hs1).
  destruct (script_streamed streamed (World (files w) st1) request streaming
              Hq1)
    as (st2 & -> & Hu2 & Hh2 & Hm2 & Hc2 & Hq2).
  cbn [state files] in Hu2, Hh2, Hm2, Hc2 |- *.
  unfold finalize. cbn [state files].
  rewrite Hc2, Hc1, Hidx, Hh2, Hh1, (proj2 (lookup_ge_None _ _) Hlen).
  eexists. split; [reflexivity |].
  cbn [state chat_history current_idx to_stream files].
  rewrite Hq2. repeat split. eexists. reflexivity.
Qed.

End Turns.

(** X9.  Loading a record and then completing a turn replaces that record
    in place: its messages become the loaded ones followed by the new
    user message (the typed text, after the file context when one is
    pending in the run that takes the text) and the reply, its name
    stays, and no other entry and not the length of the history
    changes. *)
Theorem loaded_conversation_continues
    (w : world) (i : nat) (old : Chat.t) (load typed streamed : Run.inputs) :
  chat_history (state w) !! i = Some old ->
  Run.clicked load = Some (LoadButton i) ->
  Run.clicked typed = None ->
  Py.truthy (Run.user_input typed) = true ->
  Run.clicked streamed = None ->
  exists w0 w',
    script load w = Done w0
    /\ turn typed streamed w0 = Done w'
    /\ chat_history (state w') !! i
       = Some (Chat.Make (Chat.name old)
                 (Chat.messages old
                  ++ [user_message (sidebar_top typed (state w0))
                                   (Run.user_input typed);
                      reply_of false (Run.events streamed)])
                 (Run.now streamed) (Run.selected_model streamed))
    /\ length (chat_history (state w')) = length (chat_history (state w))
    /\ (forall j, j <> i ->
          chat_history (state w') !! j = chat_history (state w) !! j)
    /\ current_idx (state w') = Some i.
Proof.
  intros Hold Hload Htyping Htext Hstreaming.
  destruct (script_load load w i old Hload Hold)
    as (st0 & Hrun0 & _ & Hh0 & Hm0 & Hc0 & Hq0).
  assert (Hold0 : chat_history (state (World (files w) st0)) !! i = Some old)
    by (cbn [state]; now rewrite Hh0).
  destruct (turn_existing typed streamed Htyping Htext Hstreaming
              (World (files w) st0) i old Hq0 Hc0 Hold0)
    as (w' & Hdone & Hhistory & _ & Hidx & _).
  exists (World (files w) st0), w'.
  split; [exact Hrun0 |]. split; [exact Hdone |].
  cbn [state] in Hhistory |- *. rewrite Hhistory, Hh0, Hm0.
  repeat split.
  - apply list_lookup_insert_eq. now apply lookup_lt_Some with old.
  - apply length_insert.
  - intros j Hj. now apply list_lookup_insert_ne.
  - exact Hidx.
Qed.

Lemma loaded_conversation_continues_witness :
  let a := Chat.Make "first" [Msg User "one" None] "t0" "m" in
  let b := Chat.Make "second" [Msg User "two" None] "t1" "m" in
  let f := Upload "text/plain" (Some "notes") NotInstalled NotInstalled in
  let w := World ∅ (Session "u" [a; b] [] None None false "p" None) in
  let load := Run.Make None "m" "p" (Some (LoadButton 0)) "" "t2" [] in
  let typed := Run.Make (Some f) "m" "p" None "more" "t2" [] in
  let streamed :=
    Run.Make (Some f) "m2" "p" None "" "t3" [Yield (chunk_of "ok")] in
  exists w0 w',
    script load w = Done w0
    /\ turn typed streamed w0 = Done w'
    /\ chat_history (state w') !! 0
       = Some (Chat.Make "first"
                 [Msg User "one" None;
                  Msg User (text_of ["File context:"; "notes"; EmptyString;
                                     "---"; EmptyString; "more"]) None;
                  Msg Assistant "ok" (Some true)] "t3" "m2").
Proof.
  intros a b f w load typed streamed.
  destruct (loaded_conversation_continues w 0 a load typed streamed
              eq_refl eq_refl eq_refl eq_refl eq_refl)
    as (w0 & w' & Hload & Hturn & Hrecord & _).
  exists w0, w'. split; [exact Hload |]. split; [exact Hturn |].
  rewrite Hrecord.
  injection Hload as <-. reflexivity.
Defined.

(** X10.  After New Chat a turn adds one record at the end of the
    history, holding the new user message and the reply and named by that
    message; every record that was there stays where it was.  New Chat
    drops the file text, so with no file in the uploader the message, and
    with it the name, is the typed text alone. *)
Theorem new_chat_adds_record
    (w : world) (click typed streamed : Run.inputs) :
  Run.clicked click = Some NewChatButton ->
  Py.truthy (Run.user_input click) = false ->
  Run.clicked typed = None ->
  Py.truthy (Run.user_input typed) = true ->
  Run.clicked streamed = None ->
  exists w0 w' user,
    script click w = Done w0
    /\ turn typed streamed w0 = Done w'
    /\ user
       = user_message (sidebar_top typed (state w0)) (Run.user_input typed)
    /\ (Run.uploaded_file typed = None ->
        user = Msg User (Run.user_input typed) None)
    /\ chat_history (state w')
       = chat_history (state w)
         ++ [Chat.Make (title_of (content user))
                       [user; reply_of false (Run.events streamed)]
                       (Run.now streamed) (Run.selected_model streamed)]
    /\ (forall j, j < length (chat_history (state w)) ->
          chat_history (state w') !! j = chat_history (state w) !! j)
    /\ current_idx (state w') = Some (length (chat_history (state w))).
Proof.
  intros Hclick Hnone Htyping Htext Hstreaming.
  pose proof (script_new_chat click w Hclick Hnone) as Hrun0.
  destruct (sidebar_top_keeps click (state w)) as (_ & Hh0 & _).
  set (w0 := World (files w) (new_chat (sidebar_top click (state w)))) in *.
  destruct (turn_new typed streamed Htyping Htext Hstreaming w0
              eq_refl eq_refl)
    as (w' & Hdone & Hhistory & _ & Hidx & _).
  cbv zeta in Hhistory.
  change (messages (state w0)) with (@nil Message) in Hhistory.
  change (chat_history (state w0))
    with (chat_history (sidebar_top click (state w))) in Hhistory, Hidx.
  cbn [app] in Hhistory. rewrite Hh0 in Hhistory, Hidx.
  change (first_user
            (user_message (sidebar_top typed (state w0)) (Run.user_input typed)
             :: [reply_of false (Run.events streamed)]))
    with (content (user_message (sidebar_top typed (state w0))
                                (Run.user_input typed))) in Hhistory.
  exists w0, w', (user_message (sidebar_top typed (state w0))
                               (Run.user_input typed)).
  split; [exact Hrun0 |]. split; [exact Hdone |]. split; [reflexivity |].
  split; [| split; [exact Hhistory | split; [| exact Hidx]]].
  - intros Hfile. unfold user_message, pending_file_context.
    now rewrite (sidebar_top_no_upload typed (state w0) Hfile eq_refl).
  - intros j Hj. rewrite Hhistory. now apply lookup_app_l.
Qed.

Lemma new_chat_adds_record_witness :
  let old := Chat.Make "old" [Msg User "x" None] "t0" "m" in
  let w := World ∅ (Session "u" [old] [Msg User "x" None] (Some 0) None false
                            "p" (Some "notes")) in
  let click := Run.Make None "m" "p" (Some NewChatButton) "" "t1" [] in
  let typed := Run.Make None "m" "p" None "hello" "t1" [] in
  let streamed := Run.Make None "m" "p" None "" "t2" [Yield (chunk_of "hi")] in
  exists w0 w',
    script click w = Done w0
    /\ turn typed streamed w0 = Done w'
    /\ chat_history (state w')
       = [old;
          Chat.Make "hello"
                    [Msg User "hello" None; Msg Assistant "hi" (Some true)]
                    "t2" "m"].
Proof.
  intros old w click typed streamed.
  destruct (new_chat_adds_record w click typed streamed
              eq_refl eq_refl eq_refl eq_refl eq_refl)
    as (w0 & w' & user & Hclick & Hturn & _ & Huser & Hhistory & _).
  exists w0, w'. split; [exact Hclick |]. split; [exact Hturn |].
  rewrite Hhistory, (Huser eq_refl). reflexivity.
Defined.

(** X11.  Two turns in a conversation that had no record fill one record:
    the first turn appends it, the second replaces it, so the history
    grows by exactly one entry, which holds the two user messages and the
    two replies and keeps the name taken from the first user message. *)
Theorem two_turns_one_record
    (w : world) (typed1 streamed1 typed2 streamed2 : Run.inputs) :
  to_stream (state w) = None ->
  current_idx (state w) = None ->
  messages (state w) = [] ->
  Run.clicked typed1 = None ->
  Py.truthy (Run.user_input typed1) = true ->
  Run.clicked streamed1 = None ->
  Run.clicked typed2 = None ->
  Py.truthy (Run.user_input typed2) = true ->
  Run.clicked streamed2 = None ->
  exists w1 w2,
    turn typed1 streamed1 w = Done w1
    /\ turn typed2 streamed2 w1 = Done w2
    /\ (let user1 :=
          user_message (sidebar_top typed1 (state w)) (Run.user_input typed1) in
        let user2 :=
          user_message (sidebar_top typed2 (state w1))
                       (Run.user_input typed2) in
        chat_history (state w2)
        = chat_history (state w)
          ++ [Chat.Make (title_of (content user1))
                        [user1; reply_of false (Run.events streamed1);
                         user2; reply_of false (Run.events streamed2)]
                        (Run.now streamed2) (Run.selected_model streamed2)])
    /\ length (chat_history (state w2)) = S (length (chat_history (state w)))
    /\ current_idx (state w2) = Some (length (chat_history (state w))).
Proof.
  intros Hidle Hnew Hempty Hc1 Ht1 Hs1 Hc2 Ht2 Hs2.
  destruct (turn_new typed1 streamed1 Hc1 Ht1 Hs1 w Hidle Hnew)
    as (w1 & Hdone1 & Hh1 & Hm1 & Hidx1 & Hq1 & _).
  cbv zeta in Hh1, Hm1. rewrite Hempty in Hh1, Hm1. cbn [app] in Hh1, Hm1.
  change (first_user
            (user_message (sidebar_top typed1 (state w)) (Run.user_input typed1)
             :: [reply_of false (Run.events streamed1)]))
    with (content (user_message (sidebar_top typed1 (state w))
                                (Run.user_input typed1))) in Hh1.
  assert (Hrec : chat_history (state w1) !! length (chat_history (state w))
                 = Some (Chat.Make
                           (title_of
                              (content
                                 (user_message (sidebar_top typed1 (state w))
                                               (Run.user_input typed1))))
                           [user_message (sidebar_top typed1 (state w))
                                         (Run.user_input typed1);
                            reply_of false (Run.events streamed1)]
                           (Run.now streamed1) (Run.selected_model streamed1))).
  { rewrite Hh1. now apply list_lookup_middle. }
  destruct (turn_existing typed2 streamed2 Hc2 Ht2 Hs2 w1 _ _ Hq1 Hidx1 Hrec)
    as (w2 & Hdone2 & Hh2 & _ & Hidx2 & _).
  exists w1, w2. split; [exact Hdone1 |]. split; [exact Hdone2 |].
  assert (Hhistory :
    chat_history (state w2)
    = chat_history (state w)
      ++ [Chat.Make
            (title_of
               (content (user_message (sidebar_top typed1 (state w))
                                      (Run.user_input typed1))))
            [user_message (sidebar_top typed1 (state w))
                          (Run.user_input typed1);
             reply_of false (Run.events streamed1);
             user_message (sidebar_top typed2 (state w1))
                          (Run.user_input typed2);
             reply_of false (Run.events streamed2)]
            (Run.now streamed2) (Run.selected_model streamed2)]).
  { rewrite Hh2, Hh1, Hm1. cbn [Chat.name app].
    rewrite insert_app_r_alt by lia. now rewrite Nat.sub_diag. }
  split; [exact Hhistory |]. split; [| exact Hidx2].
  rewrite Hhistory, length_app. cbn [length]. lia.
Qed.

Lemma two_turns_one_record_witness :
  let w := World ∅ (Session "u" [] [] None None false "p" None) in
  let typed1 := Run.Make None "m" "p" None "hi" "t1" [] in
  let streamed1 :=
    Run.Make None "m" "p" None "" "t1" [Yield (chunk_of "Hello")] in
  let typed2 := Run.Make None "m" "p" None "and?" "t2" [] in
  let streamed2 :=
    Run.Make None "m" "p" None "" "t2" [Yield (chunk_of "More")] in
  exists w1 w2,
    turn typed1 streamed1 w = Done w1
    /\ turn typed2 streamed2 w1 = Done w2
    /\ chat_history (state w2)
       = [Chat.Make "hi"
                    [Msg User "hi" None; Msg Assistant "Hello" (Some true);
                     Msg User "and?" None; Msg Assistant "More" (Some true)]
                    "t2" "m"].
Proof.
  intros w typed1 streamed1 typed2 streamed2.
  destruct (two_turns_one_record w typed1 streamed1 typed2 streamed2
              eq_refl eq_refl eq_refl eq_refl eq_refl eq_refl eq_refl eq_refl
              eq_refl)
    as (w1 & w2 & H1 & H2 & Hhistory & _).
  exists w1, w2. split; [exact H1 |]. split; [exact H2 |].
  rewrite Hhistory. injection H1 as <-. reflexivity.
Defined.

(** X12.  When the last record is the current one and an earlier record
    is deleted, the current index is left pointing past the end: the next
    turn stops with IndexError before anything is saved, the request stays
    queued, and the next run fails the same way whatever the stream
    delivers. *)
Theorem delete_then_turn_fails
    (w : world) (i cur : nat) (click typed streamed : Run.inputs) :
  to_stream (state w) = None ->
  current_idx (state w) = Some cur ->
  length (chat_history (state w)) = S cur ->
  i < cur ->
  Run.clicked click = Some (DeleteButton i) ->
  Run.clicked typed = None ->
  Py.truthy (Run.user_input typed) = true ->
  Run.clicked streamed = None ->
  exists w1 w2,
    script click w = Done w1
    /\ turn typed streamed w1 = Failed IndexError w2
    /\ files w2 = files w1
    /\ load_history (files w2) (user_id (state w))
       = Returns (history_value (delete i (chat_history (state w))))
    /\ is_Some (to_stream (state w2))
    /\ (forall again : Run.inputs,
          Run.clicked again = None ->
          exists w3, script again w2 = Failed IndexError w3).
Proof.
  intros Hidle Hcur Hlen Hi Hclick Htyping Htext Hstreaming.
  assert (Hrecord : is_Some (chat_history (state w) !! i))
    by (apply lookup_lt_is_Some; lia).
  destruct Hrecord as [record Hrecord].
  assert (Hother : current_idx (state w) <> Some i)
    by (rewrite Hcur; intros [= ->]; lia).
  destruct (script_delete_other click w i record Hclick Hrecord Hother)
    as (st1 & Hrun1 & Hu1 & Hh1 & _ & Hc1 & Hq1).
  rewrite Hcur in Hc1. rewrite Hidle in Hq1.
  assert (Hshort : length (chat_history st1) <= cur).
  { rewrite Hh1, length_delete by eauto. lia. }
  destruct (turn_stale typed streamed Htyping Htext Hstreaming
              (World (save_history (files w) (user_id (state w))
                                   (delete i (chat_history (state w)))) st1)
              cur Hq1 Hc1 Hshort)
    as (w2 & Hfail & Hfiles & Hhistory & Hidx & [request Hrequest]).
  eexists _, w2. split; [exact Hrun1 |]. split; [exact Hfail |].
  split; [exact Hfiles |]. split; [| split; [now exists request |]].
  - rewrite Hfiles. cbn [files]. apply load_saved.
  - intros again Hagain.
    destruct (script_streamed again w2 request Hagain Hrequest)
      as (st3 & -> & _ & Hh3 & _ & Hc3 & _).
    destruct (stale_index_raises (Run.selected_model again) (Run.now again)
                (fst (consume (stop_requested (state w2)) EmptyString
                              (Run.events again)))
                (World (files w2) st3) cur)
      as (w3 & Hagain' & _).
    + cbn [state]. now rewrite Hc3.
    + cbn [state] in Hhistory |- *. now rewrite Hh3, Hhistory.
    + now exists w3.
Qed.

Lemma delete_then_turn_fails_witness :
  let a := Chat.Make "a" [] "t0" "m" in
  let b := Chat.Make "b" [Msg User "x" None] "t1" "m" in
  let w := World ∅ (Session "u" [a; b] [Msg User "x" None] (Some 1) None
                            false "p" None) in
  let click := Run.Make None "m" "p" (Some (DeleteButton 0)) "" "t2" [] in
  let typed := Run.Make None "m" "p" None "again" "t2" [] in
  let streamed := Run.Make None "m" "p" None "" "t3" [Yield (chunk_of "ok")] in
  exists w1 w2,
    script click w = Done w1
    /\ turn typed streamed w1 = Failed IndexError w2.
Proof.
  intros a b w click typed streamed.
  destruct (delete_then_turn_fails w 0 1 click typed streamed
              eq_refl eq_refl eq_refl ltac:(lia) eq_refl eq_refl eq_refl
              eq_refl)
    as (w1 & w2 & Hdelete & Hfail & _).
  exists w1, w2. split; assumption.
Defined.

(** X13.  A first message sent while a file context of nine characters
    or more is pending names the record after the file context alone: the
    name is the first thirty characters of the context header followed by
    three dots, whatever the user typed. *)
Theorem file_context_names_record
    (w : world) (f : string) (typed streamed : Run.inputs) :
  to_stream (state w) = None ->
  current_idx (state w) = None ->
  messages (state w) = [] ->
  pending_file_context (sidebar_top typed (state w)) = Some f ->
  9 <= String.length f ->
  Run.clicked typed = None ->
  Py.truthy (Run.user_input typed) = true ->
  Run.clicked streamed = None ->
  exists w' record,
    turn typed streamed w = Done w'
    /\ chat_history (state w') = chat_history (state w) ++ [record]
    /\ Chat.name record = Py.take 30 (context_header f) +:+ "...".
Proof.
  intros Hidle Hnew Hempty Hfile Hlen Htyping Htext Hstreaming.
  destruct (turn_new typed streamed Htyping Htext Hstreaming w Hidle Hnew)
    as (w' & Hdone & Hhistory & _).
  cbv zeta in Hhistory. rewrite Hempty in Hhistory. cbn [app] in Hhistory.
  eexists w', _. split; [exact Hdone |]. split; [exact Hhistory |].
  cbn [Chat.name]. unfold user_message. rewrite Hfile, first_user_head.
  assert (Hsplit : with_file_context (Some f) (Run.user_input typed)
                   = context_header f +:+ Run.user_input typed).
  { unfold with_file_context, context_header. now rewrite !append_assoc. }
  assert (Hheader : 30 <= String.length (context_header f)).
  { unfold context_header. rewrite !length_append. cbn [String.length Py.nl].
    change (String.length "File context:") with 13.
    change (String.length "---") with 3. lia. }
  rewrite Hsplit. unfold title_of.
  assert (Hlong : (30 <? String.length
                           (context_header f +:+ Run.user_input typed))
                  = true).
  { apply Nat.ltb_lt. rewrite length_append.
    destruct (Run.user_input typed);
      [discriminate | cbn [String.length]; lia]. }
  rewrite Hlong. now rewrite take_append.
Qed.

Lemma file_context_names_record_witness :
  let f := Upload "text/csv" (Some "name,age,city") NotInstalled NotInstalled in
  let w := World ∅ (Session "u" [] [] None None false "p" None) in
  let typed := Run.Make (Some f) "m" "p" None "How many rows?" "t" [] in
  let streamed :=
    Run.Make (Some f) "m" "p" None "" "t" [Yield (chunk_of "One")] in
  exists w' record,
    turn typed streamed w = Done w'
    /\ chat_history (state w') = [record]
    /\ Chat.name record = Py.take 30 (context_header "name,age,city") +:+ "...".
Proof.
  intros f w typed streamed.
  destruct (file_context_names_record w "name,age,city" typed streamed
              eq_refl eq_refl eq_refl eq_refl ltac:(cbn; lia) eq_refl eq_refl
              eq_refl)
    as (w' & record & Hdone & Hhistory & Hname).
  exists w', record. repeat split; assumption.
Defined.
